(** * MindPulse: the scoring and forecast engine of [backend/app.py]

    A shallow embedding of [clamp], [compute_mri], [build_forecast],
    [weekly_series], [risk_package] and [predict], over the values Python
    computes with: unbounded integers ([Z]), IEEE 754 binary64 floats (the
    kernel's [float]), and the exceptions the built-ins raise; then of
    [local_assistant_reply], [chat], [load_users], [save_users], [signup]
    and [login], over strings and the users file. *)

From Stdlib Require Import ZArith Lia Floats.
From stdpp Require Import base option list gmap strings.

#[local] Set Warnings "-inexact-float,-register-all".
#[local] Open Scope Z_scope.

(** ** Exceptions and fallible results *)

Inductive pyexc : Type :=
  | TypeError (msg : string)
  | ValueError (msg : string)
  | OverflowError (msg : string).

Inductive result (A : Type) : Type :=
  | Ok (a : A)
  | Raise (e : pyexc).
Arguments Ok {A} a.
Arguments Raise {A} e.

#[global] Instance result_ret : MRet result := @Ok.
#[global] Instance result_bind : MBind result := fun A B k r =>
  match r with
  | Ok a => k a
  | Raise e => Raise e
  end.

Definition is_ok {A} (r : result A) : bool :=
  match r with Ok _ => true | Raise _ => false end.

(** ** Python numbers *)

Module PyFloat.

(** [float(n)] for a Python int: the nearest binary64 value, ties to even.
    The caller rejects an infinite outcome. *)
Definition of_Z (z : Z) : float := SF2Prim (binary_normalize prec emax z 0 false).

Definition is_nan (f : float) : bool :=
  match Prim2SF f with S754_nan => true | _ => false end.

Definition is_inf (f : float) : bool :=
  match Prim2SF f with S754_infinity _ => true | _ => false end.

Definition is_finite (f : float) : bool := negb (is_nan f) && negb (is_inf f).

(** The integer part of [m * 2^e], for [m >= 0]. *)
Definition trunc_scaled (m e : Z) : Z := Z.shiftl m e.

(** The integer nearest to [m * 2^e], ties to the even one, for [m >= 0]. *)
Definition round_scaled (m e : Z) : Z :=
  if 0 <=? e then m * 2 ^ e
  else
    let d := 2 ^ (- e) in
    let q := m / d in
    match (2 * (m mod d)) ?= d with
    | Lt => q
    | Gt => q + 1
    | Eq => if Z.even q then q else q + 1
    end.

(** The largest integer below or equal to [m * 2^e], for any sign of [m]. *)
Definition floor_scaled (m e : Z) : Z := Z.shiftl m e.

(** [x < z], decided on the exact values, as Python compares a float with
    an int. *)
Definition lt_Z (x : float) (z : Z) : bool :=
  match Prim2SF x with
  | S754_nan => false
  | S754_infinity s => s
  | S754_zero _ => 0 <? z
  | S754_finite s m e =>
      let v := cond_Zopp s (Zpos m) in
      if 0 <=? e then v * 2 ^ e <? z else v <? z * 2 ^ (- e)
  end.

(** [z < x], likewise. *)
Definition Z_lt (z : Z) (x : float) : bool :=
  match Prim2SF x with
  | S754_nan => false
  | S754_infinity s => negb s
  | S754_zero _ => z <? 0
  | S754_finite s m e =>
      let v := cond_Zopp s (Zpos m) in
      if 0 <=? e then z <? v * 2 ^ e else z * 2 ^ (- e) <? v
  end.

End PyFloat.

Inductive pynum : Type :=
  | PInt (z : Z)
  | PFloat (f : float).

(** The values a decoded JSON body holds. *)
Inductive pyval : Type :=
  | VNone
  | VBool (b : bool)
  | VInt (z : Z)
  | VFloat (f : float)
  | VStr (s : string)
  | VList (items : list pyval)
  | VDict (items : list (string * pyval)).

Definition type_name (v : pyval) : string :=
  match v with
  | VNone => "NoneType"
  | VBool _ => "bool"
  | VInt _ => "int"
  | VFloat _ => "float"
  | VStr _ => "str"
  | VList _ => "list"
  | VDict _ => "dict"
  end.

Definition num_type_name (n : pynum) : string :=
  match n with PInt _ => "int" | PFloat _ => "float" end.

(** The conversion of an int operand that meets a float operand. *)
Definition float_of_int (z : Z) : result float :=
  let f := PyFloat.of_Z z in
  if PyFloat.is_inf f then Raise (OverflowError "int too large to convert to float")
  else Ok f.

Definition to_float (n : pynum) : result float :=
  match n with
  | PInt z => float_of_int z
  | PFloat f => Ok f
  end.

(** [a + b] *)
Definition py_add (a b : pynum) : result pynum :=
  match a, b with
  | PInt x, PInt y => Ok (PInt (x + y))
  | _, _ => x ← to_float a; y ← to_float b; Ok (PFloat (x + y)%float)
  end.

(** [a - b] *)
Definition py_sub (a b : pynum) : result pynum :=
  match a, b with
  | PInt x, PInt y => Ok (PInt (x - y))
  | _, _ => x ← to_float a; y ← to_float b; Ok (PFloat (x - y)%float)
  end.

(** [a < b]: ints and floats compare by value; a NaN compares false. *)
Definition py_lt (a b : pynum) : bool :=
  match a, b with
  | PInt x, PInt y => x <? y
  | PFloat x, PFloat y => (x <? y)%float
  | PFloat x, PInt y => PyFloat.lt_Z x y
  | PInt x, PFloat y => PyFloat.Z_lt x y
  end.

(** [min(a, b)] keeps its first argument unless the second is smaller;
    [max(a, b)] keeps its first argument unless the second is greater. *)
Definition py_min (a b : pynum) : pynum := if py_lt b a then b else a.
Definition py_max (a b : pynum) : pynum := if py_lt a b then b else a.

(** [int(x)]: truncation toward zero. *)
Definition py_int (n : pynum) : result Z :=
  match n with
  | PInt z => Ok z
  | PFloat f =>
      match Prim2SF f with
      | S754_nan => Raise (ValueError "cannot convert float NaN to integer")
      | S754_infinity _ => Raise (OverflowError "cannot convert float infinity to integer")
      | S754_zero _ => Ok 0
      | S754_finite s m e => Ok (cond_Zopp s (PyFloat.trunc_scaled (Zpos m) e))
      end
  end.

(** [round(x)] of a float: the nearest int, ties to even. *)
Definition py_round (f : float) : result Z :=
  match Prim2SF f with
  | S754_nan => Raise (ValueError "cannot convert float NaN to integer")
  | S754_infinity _ => Raise (OverflowError "cannot convert float infinity to integer")
  | S754_zero _ => Ok 0
  | S754_finite s m e => Ok (cond_Zopp s (PyFloat.round_scaled (Zpos m) e))
  end.

(** The exact value of a finite [x], in hundredths, rounded to a nearest
    integer, ties to even. *)
Definition hundredths (f : float) : Z :=
  match Prim2SF f with
  | S754_finite s m e => cond_Zopp s (PyFloat.round_scaled (Zpos m * 100) e)
  | _ => 0
  end.

(** [round(x, 2)]: the float nearest to [hundredths x / 100]. The quotient
    of two exactly represented integers is that nearest float; the
    hundredths stay below 2^53 for every [x] below 2^46 in magnitude, which
    covers the one call site (a value between 0.7 and 0.95). *)
Definition py_round2 (f : float) : float :=
  match Prim2SF f with
  | S754_finite _ _ _ => (PyFloat.of_Z (hundredths f) / 100)%float
  | _ => f
  end.

(** [a / b] on two ints below 2^53 in magnitude: both convert exactly and
    the float quotient is the correctly rounded one. *)
Definition int_truediv (a b : Z) : float := (PyFloat.of_Z a / PyFloat.of_Z b)%float.

(** [math.floor(x)], the rounding the specification names for the seed. *)
Definition py_floor (n : pynum) : result Z :=
  match n with
  | PInt z => Ok z
  | PFloat f =>
      match Prim2SF f with
      | S754_nan => Raise (ValueError "cannot convert float NaN to integer")
      | S754_infinity _ => Raise (OverflowError "cannot convert float infinity to integer")
      | S754_zero _ => Ok 0
      | S754_finite s m e => Ok (PyFloat.floor_scaled (cond_Zopp s (Zpos m)) e)
      end
  end.

(** The number a JSON value stands for in arithmetic, when it is one. *)
Definition as_num (v : pyval) : option pynum :=
  match v with
  | VBool b => Some (PInt (if b then 1 else 0))
  | VInt z => Some (PInt z)
  | VFloat f => Some (PFloat f)
  | _ => None
  end.

(** [a + v] with a raw payload value on the right. *)
Definition py_add_val (a : pynum) (v : pyval) : result pynum :=
  match as_num v with
  | Some b => py_add a b
  | None =>
      Raise (TypeError ("unsupported operand type(s) for +: '" ++ num_type_name a
                          ++ "' and '" ++ type_name v ++ "'"))
  end.

(** ** [clamp] *)

Definition clamp (value low high : pynum) : pynum := py_max low (py_min high value).

(** [clamp(value)] with the default bounds [low = 0], [high = 100]. *)
Definition clamp_default (value : pynum) : pynum := clamp value (PInt 0) (PInt 100).

(** ** What the program takes from the Python runtime

    The parser behind [float(s)] for a [str], and the generator behind the
    module [random]: its state, the state [random.seed(n)] installs and the
    draw [random.random()]. The program fixes neither; every result below
    holds for any of them. *)

Class PyRuntime : Type := {
  float_of_str : string -> option float;
  rng : Type;
  rng_seed : Z -> rng;
  rng_random : rng -> float * rng
}.

Section Engine.

Context {RT : PyRuntime}.

(** [float(v)]. A bool is an int; a string goes through the runtime's
    parser; anything else is a [TypeError]. The [ValueError] quotes the
    string between apostrophes, without the escapes [repr] would add. *)
Definition py_float (v : pyval) : result float :=
  match v with
  | VBool b => Ok (if b then 1 else 0)%float
  | VInt z => float_of_int z
  | VFloat f => Ok f
  | VStr s =>
      match float_of_str s with
      | Some f => Ok f
      | None => Raise (ValueError ("could not convert string to float: '" ++ s ++ "'"))
      end
  | _ =>
      Raise (TypeError ("float() argument must be a string or a real number, not '"
                          ++ type_name v ++ "'"))
  end.

(** [random.uniform(a, b)] is [a + (b - a) * random()]. *)
Definition uniform (a b : Z) (g : rng) : float * rng :=
  let (r, g') := rng_random g in
  ((PyFloat.of_Z a + PyFloat.of_Z (b - a) * r)%float, g').

(** [payload.get(key, default)] *)
Definition get (payload : gmap string pyval) (key : string) (default : pyval) : pyval :=
  match payload !! key with
  | Some v => v
  | None => default
  end.

(** *** [compute_mri] *)

Record metrics : Type := {
  sleep : float;
  switching : float;
  stress : float;
  workload : float;
  hrv : float;
  deep_work : float;
  deep_work_hours : float;
  context_switching : float;
  context_hours : float;
  recovery_breaks : float;
  recovery_hours : float;
  overload_hours : float;
  overload_hours_count : float
}.

(** The recognized keys with their defaults, in the order of lines 39-51. *)
Definition metric_defaults : list (string * Z) :=
  [("sleep", 5); ("switching", 5); ("stress", 5); ("workload", 5); ("hrv", 5);
   ("deep_work", 50); ("deep_work_hours", 4); ("context_switching", 50);
   ("context_hours", 3); ("recovery_breaks", 40); ("recovery_hours", 2);
   ("overload_hours", 50); ("overload_hours_count", 4)].

(** Lines 53-57, on the thirteen floats. *)
Definition score_of (m : metrics) : float :=
  let score :=
    (100 - (switching m * 4 + stress m * 5 + workload m * 4)
     + (sleep m * 5 + hrv m * 3))%float in
  let score := (score + (deep_work m * 0.1 + deep_work_hours m * 1.5))%float in
  let score := (score - (context_switching m * 0.15 + context_hours m * 2.0))%float in
  let score := (score + (recovery_breaks m * 0.12 + recovery_hours m * 2.0))%float in
  let score := (score - (overload_hours m * 0.2 + overload_hours_count m * 2.5))%float in
  score.

(** Lines 38-58. Every operand of the score is a float or an int literal,
    which Python converts exactly before the operation. *)
Definition compute_mri (payload : gmap string pyval) : result Z :=
  sleep ← py_float (get payload "sleep" (VInt 5));
  switching ← py_float (get payload "switching" (VInt 5));
  stress ← py_float (get payload "stress" (VInt 5));
  workload ← py_float (get payload "workload" (VInt 5));
  hrv ← py_float (get payload "hrv" (VInt 5));
  deep_work ← py_float (get payload "deep_work" (VInt 50));
  deep_work_hours ← py_float (get payload "deep_work_hours" (VInt 4));
  context_switching ← py_float (get payload "context_switching" (VInt 50));
  context_hours ← py_float (get payload "context_hours" (VInt 3));
  recovery_breaks ← py_float (get payload "recovery_breaks" (VInt 40));
  recovery_hours ← py_float (get payload "recovery_hours" (VInt 2));
  overload_hours ← py_float (get payload "overload_hours" (VInt 50));
  overload_hours_count ← py_float (get payload "overload_hours_count" (VInt 4));
  let score :=
    (100 - (switching * 4 + stress * 5 + workload * 4) + (sleep * 5 + hrv * 3))%float in
  let score := (score + (deep_work * 0.1 + deep_work_hours * 1.5))%float in
  let score := (score - (context_switching * 0.15 + context_hours * 2.0))%float in
  let score := (score + (recovery_breaks * 0.12 + recovery_hours * 2.0))%float in
  let score := (score - (overload_hours * 0.2 + overload_hours_count * 2.5))%float in
  r ← py_round score;
  py_int (clamp_default (PInt r)).

(** Lines 39-51 on their own: the thirteen conversions, in order. *)
Definition extract_metrics (payload : gmap string pyval) : result metrics :=
  sleep ← py_float (get payload "sleep" (VInt 5));
  switching ← py_float (get payload "switching" (VInt 5));
  stress ← py_float (get payload "stress" (VInt 5));
  workload ← py_float (get payload "workload" (VInt 5));
  hrv ← py_float (get payload "hrv" (VInt 5));
  deep_work ← py_float (get payload "deep_work" (VInt 50));
  deep_work_hours ← py_float (get payload "deep_work_hours" (VInt 4));
  context_switching ← py_float (get payload "context_switching" (VInt 50));
  context_hours ← py_float (get payload "context_hours" (VInt 3));
  recovery_breaks ← py_float (get payload "recovery_breaks" (VInt 40));
  recovery_hours ← py_float (get payload "recovery_hours" (VInt 2));
  overload_hours ← py_float (get payload "overload_hours" (VInt 50));
  overload_hours_count ← py_float (get payload "overload_hours_count" (VInt 4));
  Ok {| sleep := sleep; switching := switching; stress := stress;
        workload := workload; hrv := hrv; deep_work := deep_work;
        deep_work_hours := deep_work_hours; context_switching := context_switching;
        context_hours := context_hours; recovery_breaks := recovery_breaks;
        recovery_hours := recovery_hours; overload_hours := overload_hours;
        overload_hours_count := overload_hours_count |}.

(** The metric a recognized key names. *)
Definition metric (m : metrics) (key : string) : option float :=
  if String.eqb key "sleep" then Some (sleep m)
  else if String.eqb key "switching" then Some (switching m)
  else if String.eqb key "stress" then Some (stress m)
  else if String.eqb key "workload" then Some (workload m)
  else if String.eqb key "hrv" then Some (hrv m)
  else if String.eqb key "deep_work" then Some (deep_work m)
  else if String.eqb key "deep_work_hours" then Some (deep_work_hours m)
  else if String.eqb key "context_switching" then Some (context_switching m)
  else if String.eqb key "context_hours" then Some (context_hours m)
  else if String.eqb key "recovery_breaks" then Some (recovery_breaks m)
  else if String.eqb key "recovery_hours" then Some (recovery_hours m)
  else if String.eqb key "overload_hours" then Some (overload_hours m)
  else if String.eqb key "overload_hours_count" then Some (overload_hours_count m)
  else None.

(** *** Computations on the shared generator

    [random.seed] and [random.uniform] act on the single generator of the
    module [random]; a computation takes its state and hands on the state
    it leaves, together with its value or the exception it raised. *)

Record py (A : Type) : Type := Py { run : rng -> result A * rng }.
Arguments Py {A} run.
Arguments run {A} p g.

#[local] Instance py_ret : MRet py := fun A a => Py (fun g => (Ok a, g)).
#[local] Instance py_bind : MBind py := fun A B k c =>
  Py (fun g =>
        match run c g with
        | (Ok a, g') => run (k a) g'
        | (Raise e, g') => (Raise e, g')
        end).

Definition lift {A} (r : result A) : py A := Py (fun g => (r, g)).

Definition random_seed (n : Z) : py unit := Py (fun _ => (Ok tt, rng_seed n)).

Definition random_uniform (a b : Z) : py float :=
  Py (fun g => let (x, g') := uniform a b g in (Ok x, g')).

(** [range(n)] *)
Definition py_range (n : nat) : list Z := Z.of_nat <$> seq 0 n.

(** *** [build_forecast] *)

Fixpoint forecast_loop (base : pynum) (context_switching recovery_breaks overload_hours : float)
    (days : list Z) (forecast : list Z) : py (list Z) :=
  match days with
  | [] => mret forecast
  | day :: days =>
      jitter ← random_uniform (-4) 4;
      let adjust :=
        (context_switching * 0.08 + overload_hours * 0.1 - recovery_breaks * 0.06)%float in
      b ← lift (py_add base (PInt (day * 3)));
      x ← lift (to_float b);
      v ← lift (py_int (clamp_default (PFloat (x + jitter + adjust)%float)));
      forecast_loop base context_switching recovery_breaks overload_hours days
        (forecast ++ [v])
  end.

Definition build_forecast (base : pynum) (seed : Z)
    (context_switching recovery_breaks overload_hours : float) : py (list Z) :=
  _ ← random_seed seed;
  forecast_loop base context_switching recovery_breaks overload_hours (py_range 7) [].

(** *** [weekly_series] *)

Record weekly : Type := {
  weekly_labels : list string;
  weekly_mri : list Z;
  weekly_load : list Z
}.

Definition labels : list string := ["Mon"; "Tue"; "Wed"; "Thu"; "Fri"; "Sat"; "Sun"].

Fixpoint weekly_loop (mri : Z)
    (deep_work context_switching recovery_breaks overload_hours : float)
    (days : list string) (mri_series load_series : list Z) : py (list Z * list Z) :=
  match days with
  | [] => mret (mri_series, load_series)
  | _ :: days =>
      drift ← random_uniform (-6) 6;
      x ← lift (float_of_int mri);
      let day_mri :=
        clamp_default
          (PFloat (x + drift + deep_work * 0.04 - context_switching * 0.05
                   + recovery_breaks * 0.03 - overload_hours * 0.06)%float) in
      i ← lift (py_int day_mri);
      let mri_series := mri_series ++ [i] in
      d ← lift (py_sub (PInt 100) day_mri);
      y ← lift (to_float d);
      let partial :=
        (y + overload_hours * 0.2 + context_switching * 0.15 - recovery_breaks * 0.1)%float in
      u ← random_uniform (-5) 5;
      l ← lift (py_int (clamp_default (PFloat (partial + u)%float)));
      weekly_loop mri deep_work context_switching recovery_breaks overload_hours days
        mri_series (load_series ++ [l])
  end.

Definition weekly_series (mri : Z) (seed : Z)
    (deep_work context_switching recovery_breaks overload_hours : float) : py weekly :=
  _ ← random_seed seed;
  '(mri_series, load_series) ←
    weekly_loop mri deep_work context_switching recovery_breaks overload_hours labels [] [];
  mret {| weekly_labels := labels; weekly_mri := mri_series; weekly_load := load_series |}.

(** *** [risk_package] *)

Record package : Type := {
  label : string;
  level : string;
  pill : string;
  forecast_label : string;
  coach_tip : string;
  recovery_now : string
}.

Definition healthy : package := {|
  label := "Healthy";
  level := "healthy";
  pill := "🟢 Healthy";
  forecast_label := "Low Risk";
  coach_tip := "You can push, but keep a 12-minute reset break every 2 hours.";
  recovery_now := "Hydration + light stretching recommended now."
|}.

Definition at_risk : package := {|
  label := "At Risk";
  level := "at-risk";
  pill := "🟡 At Risk";
  forecast_label := "Elevated Risk";
  coach_tip :=
    "You need a 17-minute low-stimulus break. Avoid decision-heavy tasks after 6 PM today.";
  recovery_now := "Step away from screens for 8 minutes and take 10 slow breaths."
|}.

Definition danger : package := {|
  label := "Burnout Incoming";
  level := "danger";
  pill := "🔴 Burnout Incoming";
  forecast_label := "High Risk";
  coach_tip :=
    "Block 45 minutes for recovery, reduce workload intensity, and delay complex tasks.";
  recovery_now := "Power nap suggestion: 18 minutes with a quiet timer."
|}.

Definition risk_package (mri : Z) : package :=
  if 75 <=? mri then healthy
  else if 55 <=? mri then at_risk
  else danger.

(** *** [predict] *)

Record risk_summary : Type := {
  risk_label : string;
  risk_level : string;
  risk_pill : string
}.

Record response : Type := {
  resp_mri : Z;
  resp_risk : risk_summary;
  resp_forecast_label : string;
  resp_confidence : pynum;
  resp_forecast : list Z;
  resp_weekly : weekly;
  resp_coach_tip : string;
  resp_recovery_now : string
}.

(** Lines 154-156. *)
Definition risk_score_of (mri : Z) (context_switching overload_hours recovery_breaks : float)
    : result pynum :=
  x ← float_of_int (100 - mri);
  Ok (clamp_default
        (PFloat (x + context_switching * 0.12 + overload_hours * 0.18
                 - recovery_breaks * 0.1)%float)).

(** Line 157: [int(mri + risk_score + payload.get("stress", 5))]. *)
Definition seed_of (mri : Z) (risk_score : pynum) (payload : gmap string pyval) : result Z :=
  s ← py_add (PInt mri) risk_score;
  s ← py_add_val s (get payload "stress" (VInt 5));
  py_int s.

(** [round(x, 2)]: an int is returned as it is. *)
Definition py_round_2 (n : pynum) : pynum :=
  match n with
  | PInt z => PInt z
  | PFloat f => PFloat (py_round2 f)
  end.

(** Lines 160 and 166. [mri] is the outcome of [compute_mri], an integer
    of [0, 100], where [int_truediv] is exact. *)
Definition confidence_of (mri : Z) : pynum :=
  let confidence :=
    clamp (PFloat (0.7 + int_truediv mri 100 * 0.25)%float) (PFloat 0.7) (PFloat 0.95) in
  py_round_2 confidence.

(** Lines 147-172, on the decoded JSON object ([{}] when the body is
    missing or empty). *)
Definition predict (payload : gmap string pyval) : py response :=
  mri ← lift (compute_mri payload);
  let risk := risk_package mri in
  context_switching ← lift (py_float (get payload "context_switching" (VInt 50)));
  recovery_breaks ← lift (py_float (get payload "recovery_breaks" (VInt 40)));
  overload_hours ← lift (py_float (get payload "overload_hours" (VInt 50)));
  deep_work ← lift (py_float (get payload "deep_work" (VInt 50)));
  risk_score ← lift (risk_score_of mri context_switching overload_hours recovery_breaks);
  seed ← lift (seed_of mri risk_score payload);
  forecast ← build_forecast risk_score seed context_switching recovery_breaks overload_hours;
  weekly ← weekly_series mri (seed + 7) deep_work context_switching recovery_breaks
             overload_hours;
  mret {|
    resp_mri := mri;
    resp_risk := {| risk_label := label risk; risk_level := level risk;
                    risk_pill := pill risk |};
    resp_forecast_label := forecast_label risk;
    resp_confidence := confidence_of mri;
    resp_forecast := forecast;
    resp_weekly := weekly;
    resp_coach_tip := coach_tip risk;
    resp_recovery_now := recovery_now risk
  |}.

(** *** The draws of a seeded generator *)

(** The generator [n] draws after [g]. *)
Fixpoint after_draws (n : nat) (g : rng) : rng :=
  match n with
  | O => g
  | S n => after_draws n (snd (rng_random g))
  end.


End Engine.

Arguments Py {RT A} run.
Arguments run {RT A} p g.

(** ** A runtime to evaluate with

    Python's own parser and its Mersenne Twister are outside the program.
    Where a statement is exercised on a concrete input, this runtime stands
    in: a 64-bit linear congruential generator, and a parser that accepts no
    string at all, so it speaks for Python on payloads that hold no string. *)

Definition lcg_step (s : Z) : Z :=
  (s * 6364136223846793005 + 1442695040888963407) mod 2 ^ 64.

Definition sample_runtime : PyRuntime := {|
  float_of_str := fun _ => None;
  rng := Z;
  rng_seed := fun n => Z.abs n mod 2 ^ 64;
  rng_random := fun g =>
    let g' := lcg_step g in
    ((PyFloat.of_Z (g' / 2 ^ 11) / PyFloat.of_Z (2 ^ 53))%float, g')
|}.

(** The payload of the "healthy" scenario. *)
Definition healthy_payload : gmap string pyval :=
  list_to_map
    [("sleep", VInt 8); ("switching", VInt 2); ("stress", VInt 2); ("workload", VInt 3);
     ("hrv", VInt 7); ("deep_work", VInt 60); ("deep_work_hours", VInt 5);
     ("context_switching", VInt 20); ("context_hours", VInt 1);
     ("recovery_breaks", VInt 70); ("recovery_hours", VInt 3);
     ("overload_hours", VInt 10); ("overload_hours_count", VInt 1)].

(** What the specification asks of the rounding in [compute_mri]: [r] is an
    integer nearest to the exact value of [f]. *)
Definition nearest_int (f : float) (r : Z) : Prop :=
  match Prim2SF f with
  | S754_zero _ => r = 0
  | S754_finite s m e =>
      let v := cond_Zopp s (Zpos m) in
      if 0 <=? e then r = v * 2 ^ e
      else 2 * Z.abs (r * 2 ^ (- e) - v) <= 2 ^ (- e)
  | _ => False
  end.

(** [base + day * 3], as the float it enters the next addition with. *)
Definition day_base (base : pynum) (day : Z) : result float :=
  b ← py_add base (PInt (day * 3)); to_float b.

(** [100 - day_mri], as the float it enters the next addition with. *)
Definition hundred_minus (day_mri : pynum) : result float :=
  d ← py_sub (PInt 100) day_mri; to_float d.

(** The metrics of an empty payload: every documented default. *)
Definition default_metrics : metrics := {|
  sleep := 5; switching := 5; stress := 5; workload := 5; hrv := 5;
  deep_work := 50; deep_work_hours := 4; context_switching := 50; context_hours := 3;
  recovery_breaks := 40; recovery_hours := 2; overload_hours := 50;
  overload_hours_count := 4
|}.

(** The check run on each MRI of [0, 100]: the clamped confidence is a
    nonzero finite float, its hundredths lie in 70..95, and the rounded
    confidence compares within [0.7, 0.95]. *)
Definition confidence_check (mri : Z) : bool :=
  match clamp (PFloat (0.7 + int_truediv mri 100 * 0.25)%float) (PFloat 0.7) (PFloat 0.95) with
  | PFloat x =>
      match Prim2SF x with
      | S754_finite _ _ _ =>
          (70 <=? hundredths x) && (hundredths x <=? 95)
          && (0.7 <=? py_round2 x)%float && (py_round2 x <=? 0.95)%float
      | _ => false
      end
  | PInt _ => false
  end.

(** A second runtime to evaluate with, whose parser reads what Python
    reads in a string of ASCII digits: the integer it writes, as the
    nearest float. Any other string is refused, so it stands for Python
    on payloads whose strings are digit strings. *)
Fixpoint digits_value (s : string) (acc : Z) : option Z :=
  match s with
  | EmptyString => Some acc
  | String c s' =>
      let n := Z.of_N (Ascii.N_of_ascii c) in
      if (48 <=? n) && (n <=? 57) then digits_value s' (acc * 10 + (n - 48)) else None
  end.

Definition digits_float (s : string) : option float :=
  match s with
  | EmptyString => None
  | _ => PyFloat.of_Z <$> digits_value s 0
  end.

Definition digits_runtime : PyRuntime := {|
  float_of_str := digits_float;
  rng := Z;
  rng_seed := fun n => Z.abs n mod 2 ^ 64;
  rng_random := fun g =>
    let g' := lcg_step g in
    ((PyFloat.of_Z (g' / 2 ^ 11) / PyFloat.of_Z (2 ^ 53))%float, g')
|}.

(** The confidence before [clamp] and [round]. *)
Definition raw_confidence (mri : Z) : float := (0.7 + int_truediv mri 100 * 0.25)%float.

(** The checks run on each MRI, or pair of MRIs, of [0, 100]. *)
Definition raw_confidence_check (mri : Z) : bool :=
  ((0.7 <=? raw_confidence mri) && (raw_confidence mri <=? 0.95))%float.

Definition confidence_le (a b : Z) : bool :=
  match confidence_of a, confidence_of b with
  | PFloat x, PFloat y => (x <=? y)%float
  | _, _ => false
  end.

Definition confidence_ordered_from (a : Z) : bool :=
  forallb (confidence_le a) (seqZ a (101 - a)).

(** ** Text, the chat reply and the accounts

    What the rest of [app.py] takes from Python's [str]: [str(v)], [s.lower()]
    and [s.strip()]. They are parameters; the laws below state what Python
    does on ASCII text, where lowering touches the letters A-Z and stripping
    removes the ASCII white space at both ends. *)

Class PyText : Type := {
  py_str : pyval -> string;
  py_lower : string -> string;
  py_strip : string -> string
}.

Definition is_ascii_char (c : Ascii.ascii) : bool := (Ascii.N_of_ascii c <? 128)%N.

Fixpoint is_ascii (s : string) : bool :=
  match s with
  | EmptyString => true
  | String c s' => is_ascii_char c && is_ascii s'
  end.

Definition ascii_lower_char (c : Ascii.ascii) : Ascii.ascii :=
  let n := Ascii.N_of_ascii c in
  if ((65 <=? n) && (n <=? 90))%N then Ascii.ascii_of_N (n + 32) else c.

Fixpoint ascii_lower (s : string) : string :=
  match s with
  | EmptyString => EmptyString
  | String c s' => String (ascii_lower_char c) (ascii_lower s')
  end.

(** The ASCII characters [str.strip()] removes: tab, line feed, vertical tab,
    form feed, carriage return, the four separators 0x1C-0x1F and space. *)
Definition ascii_space (c : Ascii.ascii) : bool :=
  let n := Ascii.N_of_ascii c in
  (((9 <=? n) && (n <=? 13)) || ((28 <=? n) && (n <=? 32)))%N.

Fixpoint ascii_lstrip (s : string) : string :=
  match s with
  | EmptyString => EmptyString
  | String c s' => if ascii_space c then ascii_lstrip s' else s
  end.

Fixpoint ascii_rstrip (s : string) : string :=
  match s with
  | EmptyString => EmptyString
  | String c s' =>
      match ascii_rstrip s' with
      | EmptyString => if ascii_space c then EmptyString else String c EmptyString
      | r => String c r
      end
  end.

Definition ascii_strip (s : string) : string := ascii_rstrip (ascii_lstrip s).

Class PyTextLaws (T : PyText) : Prop := {
  str_of_str : forall s, py_str (VStr s) = s;
  lower_ascii : forall s, is_ascii s = true -> py_lower s = ascii_lower s;
  strip_ascii : forall s, is_ascii s = true -> py_strip s = ascii_strip s
}.

(** [needle in hay], on strings. *)
Fixpoint contains (needle hay : string) : bool :=
  if String.prefix needle hay then true
  else
    match hay with
    | EmptyString => false
    | String _ rest => contains needle rest
    end.

(** The users file: absent, present but not JSON, or holding the JSON object
    [save_users] wrote, which [json.loads] reads back as the same dict of
    records. Files of another shape, and files that cannot be read, are
    outside the model. *)
Inductive users_file : Type :=
  | Missing
  | Unparseable
  | Holds (users : gmap string (gmap string string)).

(** Lines 21-27. *)
Definition load_users (file : users_file) : gmap string (gmap string string) :=
  match file with
  | Holds users => users
  | Missing | Unparseable => ∅
  end.

(** Lines 30-31. *)
Definition save_users (users : gmap string (gmap string string)) : users_file := Holds users.

Definition fatigue_words : list string := ["tired"; "exhausted"; "burnt"; "burnout"; "drained"].
Definition stress_words : list string := ["stress"; "anxious"; "overwhelmed"; "panic"].
Definition focus_words : list string := ["focus"; "distracted"; "procrastinate"; "procrastination"].
Definition sleep_words : list string := ["sleep"; "insomnia"; "late"].

Definition depleted_reply : string :=
  "You sound depleted. Try a 12–18 minute low-stimulus break, then pick one tiny task to restart momentum. Do you want a breathing or a walk suggestion?".

Definition downshift_reply : string :=
  "Let’s downshift: 60 seconds of box breathing (4‑4‑4‑4), then a 5‑minute screen break. What’s the single most urgent task right now?".

Definition focus_reply : string :=
  "Try a 25‑minute focus sprint: pick one task, close extra tabs, and set a timer. Want a 2‑minute reset exercise first?".

Definition sleep_reply : string :=
  "For tonight: dim screens 60 minutes before bed, avoid heavy decisions, and do a 3‑minute slow-breath routine. What time do you plan to sleep?".

Definition default_reply : string :=
  "I can help with recovery moves, stress resets, or focus plans. Tell me how you’re feeling or what you need right now.".

Section Text.

Context {T : PyText}.

(** [any(word in msg for word in words)] *)
Definition any_in (words : list string) (msg : string) : bool :=
  existsb (fun word => contains word msg) words.

(** Lines 180-205. *)
Definition local_assistant_reply (message : string) : string :=
  let msg := py_lower message in
  if any_in fatigue_words msg then depleted_reply
  else if any_in stress_words msg then downshift_reply
  else if any_in focus_words msg then focus_reply
  else if any_in sleep_words msg then sleep_reply
  else default_reply.

(** [str(payload.get(key, "")).strip()] *)
Definition stripped_field (payload : gmap string pyval) (key : string) : string :=
  py_strip (py_str (get payload key (VStr ""))).

(** A JSON body with its status code. *)
Definition http_response : Type := gmap string pyval * Z.

(** Lines 209-217. *)
Definition chat (payload : gmap string pyval) : http_response :=
  let message := stripped_field payload "message" in
  if String.eqb message "" then ({[ "error" := VStr "Message is required." ]}, 400)
  else
    let reply := local_assistant_reply message in
    ({[ "reply" := VStr reply ]}, 200).

(** Lines 221-238: the response and the users file it leaves. *)
Definition signup (payload : gmap string pyval) (file : users_file)
    : http_response * users_file :=
  let username := stripped_field payload "username" in
  let email := py_lower (stripped_field payload "email") in
  let password := stripped_field payload "password" in
  if String.eqb username "" || String.eqb email "" || String.eqb password "" then
    (({[ "error" := VStr "username, email, and password are required." ]}, 400), file)
  else if negb (contains "@gmail.com" email) then
    (({[ "error" := VStr "Gmail address required." ]}, 400), file)
  else
    let users := load_users file in
    match users !! email with
    | Some _ => (({[ "error" := VStr "User already exists." ]}, 409), file)
    | None =>
        let users :=
          <[email := {[ "username" := username; "password" := password ]}]> users in
        (({[ "ok" := VBool true; "username" := VStr username; "email" := VStr email ]}, 200),
         save_users users)
    end.

(** Lines 242-252: the response; the users file is only read. *)
Definition login (payload : gmap string pyval) (file : users_file) : http_response :=
  let email := py_lower (stripped_field payload "email") in
  let password := stripped_field payload "password" in
  let users := load_users file in
  match users !! email with
  | Some user =>
      if decide (user = ∅) then ({[ "error" := VStr "Invalid credentials." ]}, 401)
      else if decide (user !! "password" = Some password) then
        ({[ "ok" := VBool true;
            "username" := VStr (default "" (user !! "username"));
            "email" := VStr email ]}, 200)
      else ({[ "error" := VStr "Invalid credentials." ]}, 401)
  | None => ({[ "error" := VStr "Invalid credentials." ]}, 401)
  end.

End Text.

(** Text built-ins to evaluate with: they are Python's on ASCII strings;
    [str] renders strings, [None], booleans and nothing else. *)
Definition ascii_text : PyText := {|
  py_str := fun v =>
    match v with
    | VStr s => s
    | VNone => "None"
    | VBool true => "True"
    | VBool false => "False"
    | _ => ""
    end;
  py_lower := ascii_lower;
  py_strip := ascii_strip
|}.

(** A string made of ASCII white space only (the empty one included). *)
Fixpoint ascii_blank (s : string) : bool :=
  match s with
  | EmptyString => true
  | String c s' => ascii_space c && ascii_blank s'
  end.

(** * Properties *)

(** ** The numeric layer on known values *)

Example float_of_int_values :
  float_of_int 100 = Ok 100%float
  /\ float_of_int (2 ^ 53 + 1) = Ok 9007199254740992%float
  /\ float_of_int (10 ^ 308) = Ok 1e308%float
  /\ float_of_int (2 ^ 1024) = Raise (OverflowError "int too large to convert to float").
Proof. repeat split; vm_compute; reflexivity. Qed.

Example py_round_values :
  py_round 0.5 = Ok 0 /\ py_round 1.5 = Ok 2 /\ py_round 2.5 = Ok 2
  /\ py_round (-2.5) = Ok (-2) /\ py_round 61.3 = Ok 61 /\ py_round 149.4 = Ok 149
  /\ py_round nan = Raise (ValueError "cannot convert float NaN to integer").
Proof. repeat split; vm_compute; reflexivity. Qed.

Example py_int_values :
  py_int (PFloat 99.9) = Ok 99 /\ py_int (PFloat (-0.5)) = Ok 0
  /\ py_int (PFloat (-889.5)) = Ok (-889) /\ py_int (PInt 7) = Ok 7
  /\ py_int (PFloat infinity)
     = Raise (OverflowError "cannot convert float infinity to integer").
Proof. repeat split; vm_compute; reflexivity. Qed.

Example py_round2_values :
  py_round2 0.125 = 0.12%float /\ py_round2 2.675 = 2.67%float
  /\ py_round2 0.8525 = 0.85%float /\ py_round2 0.7 = 0.7%float.
Proof. repeat split; vm_compute; reflexivity. Qed.

Example clamp_values :
  clamp_default (PFloat 42.5) = PFloat 42.5
  /\ clamp_default (PFloat 100) = PInt 100
  /\ clamp_default (PFloat (-0.0)) = PInt 0
  /\ clamp_default (PFloat nan) = PInt 100
  /\ clamp_default (PFloat neg_infinity) = PInt 0
  /\ clamp_default (PInt 149) = PInt 100
  /\ clamp (PFloat 0.5) (PFloat 0.7) (PFloat 0.95) = PFloat 0.7.
Proof. repeat split; vm_compute; reflexivity. Qed.

(** ** Results and the shared generator *)

Lemma result_bind_Ok {A B} (k : A -> result B) (a : A) : (Ok a ≫= k) = k a.
Proof. reflexivity. Qed.

Lemma result_bind_Raise {A B} (k : A -> result B) (e : pyexc) : (Raise e ≫= k) = Raise e.
Proof. reflexivity. Qed.

Lemma result_bind_inv {A B} (k : A -> result B) (r : result A) (b : B) :
  (r ≫= k) = Ok b -> exists a, r = Ok a /\ k a = Ok b.
Proof. destruct r as [a|e]; [eauto | discriminate]. Qed.

(** ** [clamp] *)

Lemma clamp_default_int (z : Z) : clamp_default (PInt z) = PInt (Z.max 0 (Z.min 100 z)).
Proof.
  unfold clamp_default, clamp, py_min, py_max, py_lt.
  destruct (z <? 100) eqn:H1.
  - apply Z.ltb_lt in H1. destruct (0 <? z) eqn:H2.
    + apply Z.ltb_lt in H2. f_equal. lia.
    + apply Z.ltb_ge in H2. f_equal. lia.
  - apply Z.ltb_ge in H1. simpl. f_equal. lia.
Qed.

(** The three outcomes of [clamp] on a float with the default bounds. *)
Lemma clamp_default_float (f : float) :
  clamp_default (PFloat f) = PInt 0 \/ clamp_default (PFloat f) = PInt 100 \/
  (clamp_default (PFloat f) = PFloat f /\
   PyFloat.lt_Z f 100 = true /\ PyFloat.Z_lt 0 f = true).
Proof.
  unfold clamp_default, clamp, py_min, py_max. cbn [py_lt].
  destruct (PyFloat.lt_Z f 100) eqn:H1; cbn [py_lt].
  - destruct (PyFloat.Z_lt 0 f) eqn:H2; auto.
  - right; left. reflexivity.
Qed.

Lemma trunc_between (f : float) :
  PyFloat.lt_Z f 100 = true -> PyFloat.Z_lt 0 f = true ->
  exists z, py_int (PFloat f) = Ok z /\ 0 <= z <= 99.
Proof.
  unfold PyFloat.lt_Z, PyFloat.Z_lt, py_int.
  destruct (Prim2SF f) as [s|s| |s m e]; try discriminate.
  - destruct s; discriminate.
  - intros Hhi Hlo. exists (cond_Zopp s (PyFloat.trunc_scaled (Z.pos m) e)). split; [reflexivity|].
    unfold PyFloat.trunc_scaled. cbv zeta in Hhi, Hlo.
    destruct (0 <=? e) eqn:He.
    + apply Z.leb_le in He. apply Z.ltb_lt in Hhi, Hlo.
      assert (0 < 2 ^ e) by (apply Z.pow_pos_nonneg; lia).
      destruct s; cbn [cond_Zopp] in *; [nia|].
      rewrite Z.shiftl_mul_pow2 by lia. lia.
    + apply Z.leb_gt in He. apply Z.ltb_lt in Hhi, Hlo.
      assert (0 < 2 ^ (- e)) by (apply Z.pow_pos_nonneg; lia).
      destruct s; cbn [cond_Zopp] in *; [lia|].
      rewrite Z.shiftl_div_pow2 by lia. split.
      * apply Z.div_pos; lia.
      * assert (Z.pos m / 2 ^ (- e) < 100); [|lia].
        apply Z.div_lt_upper_bound; lia.
Qed.

(** [int(clamp(x))] never raises and lands in [0, 100], whatever the float. *)
Lemma int_clamp_float (f : float) :
  exists z, py_int (clamp_default (PFloat f)) = Ok z /\ 0 <= z <= 100.
Proof.
  destruct (clamp_default_float f) as [H|[H|(H & Hhi & Hlo)]]; rewrite H.
  - exists 0. split; [reflexivity | lia].
  - exists 100. split; [reflexivity | lia].
  - destruct (trunc_between f Hhi Hlo) as (z & Hz & Hr). exists z. split; [exact Hz | lia].
Qed.

(** ** [round] *)

Lemma round_scaled_nearest (m e : Z) :
  0 <= m -> e < 0 ->
  2 * Z.abs (PyFloat.round_scaled m e * 2 ^ (- e) - m) <= 2 ^ (- e).
Proof.
  intros Hm He. unfold PyFloat.round_scaled.
  destruct (0 <=? e) eqn:H0; [apply Z.leb_le in H0; lia|]. cbv zeta.
  assert (Hd : 0 < 2 ^ (- e)) by (apply Z.pow_pos_nonneg; lia).
  set (d := 2 ^ (- e)) in *.
  pose proof (Z.div_mod m d ltac:(lia)) as Hdm.
  pose proof (Z.mod_pos_bound m d Hd) as Hr.
  set (q := m / d) in *. set (r := m mod d) in *.
  destruct (Z.compare_spec (2 * r) d) as [Heq|Hlt|Hgt].
  - destruct (Z.even q); nia.
  - nia.
  - nia.
Qed.

Lemma py_round_finite (f : float) :
  PyFloat.is_finite f = true -> exists r, py_round f = Ok r /\ nearest_int f r.
Proof.
  unfold PyFloat.is_finite, PyFloat.is_nan, PyFloat.is_inf, py_round, nearest_int.
  destruct (Prim2SF f) as [s|s| |s m e]; try discriminate; intros _.
  - exists 0. split; reflexivity.
  - eexists. split; [reflexivity|]. cbv zeta.
    destruct (0 <=? e) eqn:He.
    + unfold PyFloat.round_scaled. rewrite He. destruct s; cbn [cond_Zopp]; lia.
    + apply Z.leb_gt in He.
      pose proof (round_scaled_nearest (Z.pos m) e ltac:(lia) He) as H.
      destruct s; cbn [cond_Zopp]; [|exact H].
      replace (- PyFloat.round_scaled (Z.pos m) e * 2 ^ (- e) - - Z.pos m)
        with (- (PyFloat.round_scaled (Z.pos m) e * 2 ^ (- e) - Z.pos m)) by ring.
      rewrite Z.abs_opp. exact H.
Qed.

Lemma py_round_not_finite (f : float) :
  PyFloat.is_finite f = false -> exists e, py_round f = Raise e.
Proof.
  unfold PyFloat.is_finite, PyFloat.is_nan, PyFloat.is_inf, py_round.
  destruct (Prim2SF f) as [s|s| |s m e]; try discriminate; intros _; eauto.
Qed.

(** Membership of a literal key in the table of defaults. *)
Ltac in_defaults := apply list_elem_of_In; unfold metric_defaults; cbn [In]; tauto.

Section EngineFacts.

Context {RT : PyRuntime}.

(** ** The thirteen conversions *)

Lemma get_present (payload : gmap string pyval) key default v :
  payload !! key = Some v -> get payload key default = v.
Proof. unfold get. intros ->. reflexivity. Qed.

Lemma get_absent (payload : gmap string pyval) key default :
  payload !! key = None -> get payload key default = default.
Proof. unfold get. intros ->. reflexivity. Qed.

(** Case analysis on the next conversion of a chain. *)
Ltac next_float :=
  lazymatch goal with
  | |- @mbind _ _ _ _ _ (py_float ?x) = _ =>
      let H := fresh "Hf" in
      destruct (py_float x) eqn:H; cbn [mbind result_bind]
  end.

(** [compute_mri] is the thirteen conversions followed by the score. *)
Lemma compute_mri_extract (payload : gmap string pyval) :
  compute_mri payload =
  (m ← extract_metrics payload; r ← py_round (score_of m); py_int (clamp_default (PInt r))).
Proof.
  unfold compute_mri, extract_metrics.
  repeat (next_float; [|reflexivity]).
  reflexivity.
Qed.

Lemma compute_mri_range (payload : gmap string pyval) (mri : Z) :
  compute_mri payload = Ok mri -> 0 <= mri <= 100.
Proof.
  rewrite compute_mri_extract. intros H.
  apply result_bind_inv in H as (m & _ & H).
  apply result_bind_inv in H as (r & _ & H).
  rewrite clamp_default_int in H. cbn in H. injection H as <-. lia.
Qed.

Ltac next_float_in H :=
  lazymatch type of H with
  | @mbind _ _ _ _ _ (py_float ?x) = _ =>
      let Hf := fresh "Hf" in
      destruct (py_float x) eqn:Hf; cbn [mbind result_bind] in H
  end.

(** A default always converts. *)
Lemma default_converts k d :
  (k, d) ∈ metric_defaults -> py_float (VInt d) = Ok (PyFloat.of_Z d).
Proof.
  unfold metric_defaults. intros Hin.
  repeat (apply elem_of_cons in Hin as [Hin|Hin];
          [injection Hin as -> ->; vm_compute; reflexivity|]).
  apply elem_of_nil in Hin. contradiction.
Qed.

(** On success every recognized key holds the conversion of the payload's
    value, or of its default. *)
Lemma extract_metrics_fields (payload : gmap string pyval) (m : metrics) :
  extract_metrics payload = Ok m ->
  forall k d, (k, d) ∈ metric_defaults ->
  exists f, py_float (get payload k (VInt d)) = Ok f /\ metric m k = Some f.
Proof.
  unfold extract_metrics. intros H.
  repeat (next_float_in H; [|discriminate H]).
  injection H as <-. intros k d Hin. unfold metric_defaults in Hin.
  repeat (apply elem_of_cons in Hin as [Hin|Hin];
          [injection Hin as -> ->; eexists; split; [eassumption | reflexivity]|]).
  apply elem_of_nil in Hin. contradiction.
Qed.

(** A failure is the exception of [float()] on the value some recognized
    key holds in the payload. *)
Lemma extract_metrics_raises (payload : gmap string pyval) (e : pyexc) :
  extract_metrics payload = Raise e ->
  exists k d v, (k, d) ∈ metric_defaults /\ payload !! k = Some v /\ py_float v = Raise e.
Proof.
  assert (Hget : forall k d, (k, d) ∈ metric_defaults ->
            py_float (get payload k (VInt d)) = Raise e ->
            exists k d v, (k, d) ∈ metric_defaults /\ payload !! k = Some v
                          /\ py_float v = Raise e).
  { intros k d Hin Hf. unfold get in Hf. destruct (payload !! k) as [v|] eqn:Hk.
    - exists k, d, v. auto.
    - rewrite (default_converts k d Hin) in Hf. discriminate. }
  unfold extract_metrics. intros H.
  repeat (next_float_in H;
          [|injection H as ->;
            lazymatch goal with
            | Hf : py_float (get _ ?k (VInt ?d)) = Raise _ |- _ =>
                exact (Hget k d ltac:(in_defaults) Hf)
            end]).
  discriminate H.
Qed.

(** When every conversion succeeds, so does the extraction. *)
Lemma extract_metrics_succeeds (payload : gmap string pyval) :
  (forall k d, (k, d) ∈ metric_defaults ->
               is_ok (py_float (get payload k (VInt d))) = true) ->
  exists m, extract_metrics payload = Ok m.
Proof.
  intros Hall. destruct (extract_metrics payload) as [m|e] eqn:H; [eauto|].
  apply extract_metrics_raises in H as (k & d & v & Hin & Hk & Hv).
  specialize (Hall k d Hin). rewrite (get_present _ _ _ _ Hk), Hv in Hall. discriminate.
Qed.

End EngineFacts.

Section GeneratorFacts.

Context {RT : PyRuntime}.
#[local] Existing Instance py_ret.
#[local] Existing Instance py_bind.

Lemma run_bind {A B} (c : py A) (k : A -> py B) (g : rng) :
  run (c ≫= k) g =
  match run c g with
  | (Ok a, g') => run (k a) g'
  | (Raise e, g') => (Raise e, g')
  end.
Proof. reflexivity. Qed.

Lemma run_lift_bind {A B} (r : result A) (k : A -> py B) (g : rng) :
  run (lift r ≫= k) g =
  match r with
  | Ok a => run (k a) g
  | Raise e => (Raise e, g)
  end.
Proof. rewrite run_bind. destruct r; reflexivity. Qed.

Lemma run_uniform_bind {B} (a b : Z) (k : float -> py B) (g : rng) :
  run (random_uniform a b ≫= k) g = run (k (fst (uniform a b g))) (snd (rng_random g)).
Proof.
  rewrite run_bind. unfold random_uniform, uniform. cbn [run].
  destruct (rng_random g) as [r g']. reflexivity.
Qed.

Lemma run_seed_bind {B} (n : Z) (k : unit -> py B) (g : rng) :
  run (random_seed n ≫= k) g = run (k tt) (rng_seed n).
Proof. reflexivity. Qed.

Lemma after_draws_S (n : nat) (g : rng) :
  after_draws (S n) g = after_draws n (snd (rng_random g)).
Proof. reflexivity. Qed.

Lemma after_draws_succ (n : nat) (g : rng) :
  after_draws (S n) g = snd (rng_random (after_draws n g)).
Proof.
  revert g. induction n as [|n IH]; intros g; [reflexivity|].
  rewrite after_draws_S, IH. reflexivity.
Qed.

(** *** The loop of [build_forecast] *)

Lemma forecast_loop_cons base cs rb oh day days acc g :
  run (forecast_loop base cs rb oh (day :: days) acc) g =
  match
    x ← day_base base day;
    py_int (clamp_default
              (PFloat (x + fst (uniform (-4) 4 g)
                       + (cs * 0.08 + oh * 0.1 - rb * 0.06))%float))
  with
  | Ok v => run (forecast_loop base cs rb oh days (acc ++ [v])) (snd (rng_random g))
  | Raise e => (Raise e, snd (rng_random g))
  end.
Proof.
  cbn [forecast_loop]. rewrite run_uniform_bind. cbv zeta.
  unfold day_base. rewrite run_lift_bind.
  destruct (py_add base (PInt (day * 3))) as [b|e]; cbn [mbind result_bind]; [|reflexivity].
  rewrite run_lift_bind.
  destruct (to_float b) as [x|e]; cbn [mbind result_bind]; [|reflexivity].
  rewrite run_lift_bind. reflexivity.
Qed.

Lemma forecast_loop_total base cs rb oh days :
  (forall day, day ∈ days -> is_ok (day_base base day) = true) ->
  forall acc g, exists vs,
    run (forecast_loop base cs rb oh days acc) g
      = (Ok (acc ++ vs), after_draws (length days) g)
    /\ length vs = length days
    /\ forall i day, days !! i = Some day ->
        exists x v, day_base base day = Ok x /\ vs !! i = Some v /\ 0 <= v <= 100
          /\ py_int (clamp_default
                       (PFloat (x + fst (uniform (-4) 4 (after_draws i g))
                                + (cs * 0.08 + oh * 0.1 - rb * 0.06))%float)) = Ok v.
Proof.
  induction days as [|day days IH]; intros Hdays acc g.
  - exists []. rewrite app_nil_r. repeat split. intros i day Hi. discriminate.
  - rewrite forecast_loop_cons.
    pose proof (Hdays day ltac:(left)) as Hb.
    destruct (day_base base day) as [x|e] eqn:Hx; [clear Hb | discriminate].
    cbn [mbind result_bind].
    destruct (int_clamp_float
                (x + fst (uniform (-4) 4 g) + (cs * 0.08 + oh * 0.1 - rb * 0.06))%float)
      as (v & Hv & Hr).
    rewrite Hv.
    destruct (IH (fun d Hd => Hdays d ltac:(right; exact Hd)) (acc ++ [v])
                (snd (rng_random g))) as (vs & Hrun & Hlen & Hnth).
    exists (v :: vs). rewrite Hrun, <- app_assoc. cbn [app length].
    repeat split; [congruence|].
    intros [|i] d Hi.
    + injection Hi as <-. exists x, v. auto.
    + destruct (Hnth i d Hi) as (x' & v' & ? & ? & ? & ?). exists x', v'. auto.
Qed.

Lemma day_base_float (b : float) (day : Z) :
  is_ok (float_of_int (day * 3)) = true ->
  day_base (PFloat b) day = Ok (b + PyFloat.of_Z (day * 3))%float.
Proof.
  unfold day_base, py_add, to_float, float_of_int. cbv zeta.
  destruct (PyFloat.is_inf (PyFloat.of_Z (day * 3))); [discriminate|]. reflexivity.
Qed.

Lemma py_range_lookup (n i : nat) : (i < n)%nat -> py_range n !! i = Some (Z.of_nat i).
Proof.
  intros Hi. unfold py_range. rewrite list_lookup_fmap, lookup_seq_lt by exact Hi.
  reflexivity.
Qed.

Lemma py_range_small (day : Z) : day ∈ py_range 7 -> 0 <= day <= 6.
Proof.
  unfold py_range. cbn. rewrite !elem_of_cons, elem_of_nil. lia.
Qed.

(** *** The loop of [weekly_series] *)

Lemma after_draws_add (a b : nat) (g : rng) :
  after_draws (a + b) g = after_draws b (after_draws a g).
Proof.
  revert g. induction a as [|a IH]; intros g; [reflexivity|].
  cbn [Nat.add after_draws]. apply IH.
Qed.

Lemma hundred_minus_clamped (f : float) :
  exists y, hundred_minus (clamp_default (PFloat f)) = Ok y.
Proof.
  destruct (clamp_default_float f) as [H|[H|(H & _)]]; rewrite H.
  - eexists. vm_compute. reflexivity.
  - eexists. vm_compute. reflexivity.
  - exists (PyFloat.of_Z 100 - f)%float. reflexivity.
Qed.

Lemma weekly_loop_cons mri dw cs rb oh d days ms ls g :
  run (weekly_loop mri dw cs rb oh (d :: days) ms ls) g =
  let g1 := snd (rng_random g) in
  let g2 := snd (rng_random g1) in
  match float_of_int mri with
  | Raise e => (Raise e, g1)
  | Ok x =>
      let day_mri :=
        clamp_default
          (PFloat (x + fst (uniform (-6) 6 g) + dw * 0.04 - cs * 0.05
                   + rb * 0.03 - oh * 0.06)%float) in
      match py_int day_mri with
      | Raise e => (Raise e, g1)
      | Ok i =>
          match hundred_minus day_mri with
          | Raise e => (Raise e, g1)
          | Ok y =>
              match
                py_int (clamp_default
                          (PFloat (y + oh * 0.2 + cs * 0.15 - rb * 0.1
                                   + fst (uniform (-5) 5 g1))%float))
              with
              | Raise e => (Raise e, g2)
              | Ok l => run (weekly_loop mri dw cs rb oh days (ms ++ [i]) (ls ++ [l])) g2
              end
          end
      end
  end.
Proof.
  cbn [weekly_loop]. rewrite run_uniform_bind. cbv zeta.
  rewrite run_lift_bind. destruct (float_of_int mri) as [x|e]; [|reflexivity].
  rewrite run_lift_bind.
  destruct (py_int _) as [i|e]; [|reflexivity].
  unfold hundred_minus. rewrite run_lift_bind.
  destruct (py_sub _ _) as [dd|e]; cbn [mbind result_bind]; [|reflexivity].
  rewrite run_lift_bind. destruct (to_float dd) as [y|e]; [|reflexivity].
  rewrite run_uniform_bind, run_lift_bind. reflexivity.
Qed.

Lemma weekly_loop_total mri x dw cs rb oh days :
  float_of_int mri = Ok x ->
  forall ms ls g, exists is' ls',
    run (weekly_loop mri dw cs rb oh days ms ls) g
      = (Ok (ms ++ is', ls ++ ls'), after_draws (2 * length days) g)
    /\ length is' = length days /\ length ls' = length days
    /\ forall i d, days !! i = Some d ->
        let drift := fst (uniform (-6) 6 (after_draws (2 * i) g)) in
        let second := fst (uniform (-5) 5 (after_draws (2 * i + 1) g)) in
        let day_mri :=
          clamp_default
            (PFloat (x + drift + dw * 0.04 - cs * 0.05 + rb * 0.03 - oh * 0.06)%float) in
        exists a y l,
          is' !! i = Some a /\ ls' !! i = Some l /\ 0 <= a <= 100 /\ 0 <= l <= 100
          /\ py_int day_mri = Ok a
          /\ hundred_minus day_mri = Ok y
          /\ py_int (clamp_default
                       (PFloat (y + oh * 0.2 + cs * 0.15 - rb * 0.1 + second)%float)) = Ok l.
Proof.
  intros Hx. induction days as [|d days IH]; intros ms ls g.
  - exists [], []. rewrite !app_nil_r. repeat split. intros i d Hi. discriminate.
  - rewrite weekly_loop_cons, Hx. cbv zeta.
    set (f := (x + fst (uniform (-6) 6 g) + dw * 0.04 - cs * 0.05 + rb * 0.03
               - oh * 0.06)%float).
    destruct (int_clamp_float f) as (a & Ha & Hra). rewrite Ha.
    destruct (hundred_minus_clamped f) as (y & Hy). rewrite Hy.
    set (f2 := (y + oh * 0.2 + cs * 0.15 - rb * 0.1
                + fst (uniform (-5) 5 (snd (rng_random g))))%float).
    destruct (int_clamp_float f2) as (l & Hl & Hrl). rewrite Hl.
    destruct (IH (ms ++ [a]) (ls ++ [l]) (snd (rng_random (snd (rng_random g)))))
      as (is' & ls' & Hrun & Hlen1 & Hlen2 & Hnth).
    exists (a :: is'), (l :: ls'). rewrite Hrun, <- !app_assoc. cbn [app length].
    replace (2 * S (length days))%nat with (2 + 2 * length days)%nat by lia.
    rewrite after_draws_add.
    repeat split; [congruence | congruence |].
    intros [|i] d' Hi.
    + exists a, y, l. cbn [lookup list_lookup]. repeat split; try assumption; try lia.
    + replace (2 * S i)%nat with (2 + 2 * i)%nat by lia.
      replace (2 + 2 * i + 1)%nat with (2 + (2 * i + 1))%nat by lia.
      rewrite !(after_draws_add 2). exact (Hnth i d' Hi).
Qed.

End GeneratorFacts.


(** * The index calculator *)

(** C1, as the code has it: on a fully populated input whose score - the
    linear formula evaluated in binary64 arithmetic, the bracketed pairs
    summed before they join the running score - is finite, [compute_mri]
    returns that score rounded to a nearest integer and clamped to [0, 100];
    on a score that is not finite (NaN or an infinity) it raises. *)
Theorem compute_mri_score {RT : PyRuntime} (payload : gmap string pyval) (m : metrics) :
  extract_metrics payload = Ok m ->
  score_of m =
    (100 - (switching m * 4 + stress m * 5 + workload m * 4) + (sleep m * 5 + hrv m * 3)
     + (deep_work m * 0.1 + deep_work_hours m * 1.5)
     - (context_switching m * 0.15 + context_hours m * 2.0)
     + (recovery_breaks m * 0.12 + recovery_hours m * 2.0)
     - (overload_hours m * 0.2 + overload_hours_count m * 2.5))%float
  /\ (PyFloat.is_finite (score_of m) = true ->
      exists r, nearest_int (score_of m) r
                /\ py_round (score_of m) = Ok r
                /\ compute_mri payload = Ok (Z.max 0 (Z.min 100 r))
                /\ 0 <= Z.max 0 (Z.min 100 r) <= 100)
  /\ (PyFloat.is_finite (score_of m) = false -> exists e, compute_mri payload = Raise e).
Proof.
  intros Hm. rewrite compute_mri_extract, Hm. cbn [mbind result_bind].
  split; [reflexivity|]. split.
  - intros Hfin. destruct (py_round_finite _ Hfin) as (r & Hr & Hn).
    exists r. rewrite Hr. cbn [mbind result_bind]. rewrite clamp_default_int.
    repeat split; [exact Hn | lia | lia].
  - intros Hfin. destruct (py_round_not_finite _ Hfin) as (e & He).
    exists e. rewrite He. reflexivity.
Qed.

(** C1 exercised on the empty payload. *)
Lemma compute_mri_score_witness :
  exists r, nearest_int (score_of default_metrics) r
            /\ py_round (score_of default_metrics) = Ok r
            /\ compute_mri (RT := sample_runtime) ∅ = Ok (Z.max 0 (Z.min 100 r))
            /\ 0 <= Z.max 0 (Z.min 100 r) <= 100.
Proof.
  destruct (compute_mri_score (RT := sample_runtime) ∅ default_metrics) as (_ & H & _).
  - vm_compute. reflexivity.
  - apply H. vm_compute. reflexivity.
Defined.

(** C1 as stated fails: the payload [{"sleep": 1e308}] is fully populated
    with numbers, yet [sleep * 5] overflows to infinity and [round] raises
    instead of returning an integer of [0, 100]. *)
Lemma compute_mri_raises_on_overflow :
  extract_metrics (RT := sample_runtime) {[ "sleep" := VFloat 1e308 ]}
    = Ok {| sleep := 1e308; switching := 5; stress := 5; workload := 5; hrv := 5;
            deep_work := 50; deep_work_hours := 4; context_switching := 50;
            context_hours := 3; recovery_breaks := 40; recovery_hours := 2;
            overload_hours := 50; overload_hours_count := 4 |}
  /\ compute_mri (RT := sample_runtime) {[ "sleep" := VFloat 1e308 ]}
     = Raise (OverflowError "cannot convert float infinity to integer").
Proof. split; vm_compute; reflexivity. Qed.

(** The same outcome under any runtime: no string is parsed, no number drawn. *)
Lemma compute_mri_overflow_any_runtime {RT : PyRuntime} :
  compute_mri {[ "sleep" := VFloat 1e308 ]}
  = Raise (OverflowError "cannot convert float infinity to integer").
Proof. vm_compute. reflexivity. Qed.

(** * The risk classifier *)

Lemma tiers_distinct : healthy <> at_risk /\ at_risk <> danger /\ healthy <> danger.
Proof. repeat split; intros H; apply (f_equal level) in H; discriminate H. Qed.

(** C2: the classifier answers Healthy exactly from 75 up, AtRisk exactly on
    55..74 and Danger exactly below 55, for every integer; the three tiers
    are distinct, so every MRI has exactly one. *)
Theorem risk_package_tiers (mri : Z) :
  (risk_package mri = healthy <-> 75 <= mri)
  /\ (risk_package mri = at_risk <-> 55 <= mri < 75)
  /\ (risk_package mri = danger <-> mri < 55)
  /\ healthy <> at_risk /\ at_risk <> danger /\ healthy <> danger.
Proof.
  destruct tiers_distinct as (Hha & Had & Hhd).
  unfold risk_package.
  destruct (75 <=? mri) eqn:H75; [apply Z.leb_le in H75 | apply Z.leb_gt in H75];
    [| destruct (55 <=? mri) eqn:H55; [apply Z.leb_le in H55 | apply Z.leb_gt in H55]];
    (split; [split | split; [split | split; [split | auto]]]);
    first [ lia | reflexivity | intros Heq; exfalso; first [ lia | congruence ] | idtac ].
Qed.

(** * The two scenarios *)

(** C9: the healthy scenario scores at least 75 (it scores 100) and is
    classified Healthy. *)
Theorem healthy_scenario {RT : PyRuntime} :
  exists mri, compute_mri healthy_payload = Ok mri /\ 75 <= mri
              /\ risk_package mri = healthy.
Proof. exists 100. repeat split; first [lia | vm_compute; reflexivity]. Qed.

(** C10: the empty payload extracts the documented defaults, scores exactly
    61, and lands in the middle tier. *)
Theorem default_baseline {RT : PyRuntime} :
  extract_metrics ∅ = Ok default_metrics
  /\ compute_mri ∅ = Ok 61
  /\ risk_package 61 = at_risk
  /\ label (risk_package 61) = "At Risk"
  /\ level (risk_package 61) = "at-risk".
Proof. repeat split; vm_compute; reflexivity. Qed.

(** * The forecast generator *)

Section ForecastFacts.

Context {RT : PyRuntime}.
#[local] Existing Instance py_ret.
#[local] Existing Instance py_bind.

Lemma build_forecast_reseeds base seed cs rb oh g :
  run (build_forecast base seed cs rb oh) g
  = run (forecast_loop base cs rb oh (py_range 7) []) (rng_seed seed).
Proof. unfold build_forecast. rewrite run_seed_bind. reflexivity. Qed.

Lemma week_day_cases (day : Z) :
  0 <= day <= 6 ->
  day = 0 \/ day = 1 \/ day = 2 \/ day = 3 \/ day = 4 \/ day = 5 \/ day = 6.
Proof. lia. Qed.

(** Closes a goal about each day of the week by evaluation. *)
Ltac each_week_day H :=
  apply week_day_cases in H;
  repeat (destruct H as [->|H]; [vm_compute; reflexivity|]);
  subst; vm_compute; reflexivity.

Lemma week_days_convert (day : Z) : 0 <= day <= 6 -> is_ok (float_of_int (day * 3)) = true.
Proof. intros H. each_week_day H. Qed.

(** A base that is itself the outcome of [clamp] never makes the loop raise. *)
Lemma day_base_clamped (f : float) (day : Z) :
  0 <= day <= 6 -> is_ok (day_base (clamp_default (PFloat f)) day) = true.
Proof.
  intros H. destruct (clamp_default_float f) as [Hc|[Hc|(Hc & _)]]; rewrite Hc.
  - each_week_day H.
  - each_week_day H.
  - rewrite day_base_float by (apply week_days_convert; exact H). reflexivity.
Qed.

End ForecastFacts.





(** * The weekly series generator *)

Lemma small_int_converts (z : Z) : 0 <= z <= 100 -> float_of_int z = Ok (PyFloat.of_Z z).
Proof.
  intros Hz. unfold float_of_int. cbv zeta.
  assert (Hall : forallb (fun z => negb (PyFloat.is_inf (PyFloat.of_Z z))) (seqZ 0 101) = true)
    by (vm_compute; reflexivity).
  rewrite forallb_forall in Hall.
  specialize (Hall z ltac:(apply list_elem_of_In, elem_of_seqZ; lia)).
  destruct (PyFloat.is_inf (PyFloat.of_Z z)); [discriminate | reflexivity].
Qed.

Section WeeklyFacts.

Context {RT : PyRuntime}.
#[local] Existing Instance py_ret.
#[local] Existing Instance py_bind.

Lemma weekly_series_reseeds mri seed dw cs rb oh g :
  run (weekly_series mri seed dw cs rb oh) g
  = match run (weekly_loop mri dw cs rb oh labels [] []) (rng_seed seed) with
    | (Ok (mri_series, load_series), g') =>
        (Ok {| weekly_labels := labels; weekly_mri := mri_series;
               weekly_load := load_series |}, g')
    | (Raise e, g') => (Raise e, g')
    end.
Proof.
  unfold weekly_series. rewrite run_seed_bind, run_bind.
  destruct (run (weekly_loop mri dw cs rb oh labels [] []) (rng_seed seed)) as [[[ms ls]|e] g'];
    reflexivity.
Qed.

End WeeklyFacts.



(** Outside the range of the MRI: an int too large for a float makes
    [mri + drift] raise on the first day. [predict] never passes one. *)
Lemma weekly_series_raises_on_huge_mri :
  fst (run (weekly_series (RT := sample_runtime) (2 ^ 1024) 0 0 0 0 0) 0)
  = Raise (OverflowError "int too large to convert to float").
Proof. vm_compute. reflexivity. Qed.

(** The same under any runtime and any earlier generator state. *)
Lemma weekly_series_huge_mri_any_runtime {RT : PyRuntime} (seed : Z) (dw cs rb oh : float)
    (g : rng) :
  fst (run (weekly_series (2 ^ 1024) seed dw cs rb oh) g)
  = Raise (OverflowError "int too large to convert to float").
Proof.
  rewrite weekly_series_reseeds. unfold labels. rewrite weekly_loop_cons. cbv zeta.
  replace (float_of_int (2 ^ 1024))
    with (@Raise float (OverflowError "int too large to convert to float"))
    by (vm_compute; reflexivity).
  reflexivity.
Qed.

(** * The response assembler *)

Section PredictFacts.

Context {RT : PyRuntime}.
#[local] Existing Instance py_ret.
#[local] Existing Instance py_bind.

Lemma compute_mri_extracts (payload : gmap string pyval) (mri : Z) :
  compute_mri payload = Ok mri -> exists m, extract_metrics payload = Ok m.
Proof.
  rewrite compute_mri_extract. intros H.
  apply result_bind_inv in H as (m & Hm & _). eauto.
Qed.

Lemma extracted_field (payload : gmap string pyval) (m : metrics) k d f :
  extract_metrics payload = Ok m -> (k, d) ∈ metric_defaults -> metric m k = Some f ->
  py_float (get payload k (VInt d)) = Ok f.
Proof.
  intros Hm Hin Hf. destruct (extract_metrics_fields payload m Hm k d Hin) as (f' & H1 & H2).
  congruence.
Qed.

(** [predict], once [compute_mri] has returned. *)
Lemma predict_after_mri (payload : gmap string pyval) (mri : Z) (m : metrics) (g : rng) :
  compute_mri payload = Ok mri -> extract_metrics payload = Ok m ->
  run (predict payload) g =
  run (risk_score ← lift (risk_score_of mri (context_switching m) (overload_hours m)
                            (recovery_breaks m));
       seed ← lift (seed_of mri risk_score payload);
       forecast ← build_forecast risk_score seed (context_switching m) (recovery_breaks m)
                    (overload_hours m);
       weekly ← weekly_series mri (seed + 7) (deep_work m) (context_switching m)
                  (recovery_breaks m) (overload_hours m);
       mret {|
         resp_mri := mri;
         resp_risk := {| risk_label := label (risk_package mri);
                         risk_level := level (risk_package mri);
                         risk_pill := pill (risk_package mri) |};
         resp_forecast_label := forecast_label (risk_package mri);
         resp_confidence := confidence_of mri;
         resp_forecast := forecast;
         resp_weekly := weekly;
         resp_coach_tip := coach_tip (risk_package mri);
         resp_recovery_now := recovery_now (risk_package mri)
       |}) g.
Proof.
  intros Hmri Hm. unfold predict. rewrite run_lift_bind, Hmri. cbv zeta.
  rewrite run_lift_bind,
    (extracted_field payload m "context_switching" 50 _ Hm ltac:(in_defaults) eq_refl).
  rewrite run_lift_bind,
    (extracted_field payload m "recovery_breaks" 40 _ Hm ltac:(in_defaults) eq_refl).
  rewrite run_lift_bind,
    (extracted_field payload m "overload_hours" 50 _ Hm ltac:(in_defaults) eq_refl).
  rewrite run_lift_bind,
    (extracted_field payload m "deep_work" 50 _ Hm ltac:(in_defaults) eq_refl).
  reflexivity.
Qed.

Lemma risk_score_of_clamped (mri : Z) (cs oh rb : float) :
  0 <= mri <= 100 ->
  risk_score_of mri cs oh rb
  = Ok (clamp_default (PFloat (PyFloat.of_Z (100 - mri) + cs * 0.12 + oh * 0.18 - rb * 0.1)%float)).
Proof.
  intros H. unfold risk_score_of. rewrite small_int_converts by lia. reflexivity.
Qed.

(** A response carries the MRI and the confidence computed from it. *)
Lemma predict_response (payload : gmap string pyval) (g g' : rng) (resp : response) :
  run (predict payload) g = (Ok resp, g') ->
  exists mri, compute_mri payload = Ok mri /\ resp_mri resp = mri
              /\ resp_confidence resp = confidence_of mri.
Proof.
  intros H. destruct (compute_mri payload) as [mri|e] eqn:Hmri.
  - destruct (compute_mri_extracts payload mri Hmri) as (m & Hm).
    rewrite (predict_after_mri payload mri m g Hmri Hm) in H.
    rewrite run_lift_bind in H. destruct (risk_score_of _ _ _ _) as [rs|e]; [|discriminate].
    rewrite run_lift_bind in H. destruct (seed_of _ _ _) as [seed|e]; [|discriminate].
    rewrite run_bind in H. destruct (run (build_forecast _ _ _ _ _) g) as [[fc|e] g1];
      [|discriminate].
    rewrite run_bind in H. destruct (run (weekly_series _ _ _ _ _ _) g1) as [[w|e] g2];
      [|discriminate].
    injection H as <- _. exists mri. auto.
  - unfold predict in H. rewrite run_lift_bind, Hmri in H. discriminate.
Qed.

End PredictFacts.

(** C5: a result depends on the arguments alone, never on what the shared
    generator held before the call: two runs of [build_forecast], of
    [weekly_series], or of the whole of [predict] on the same arguments
    return the same value (or raise the same exception). *)
Theorem generators_deterministic {RT : PyRuntime} :
  (forall base seed cs rb oh g1 g2,
     run (build_forecast base seed cs rb oh) g1 = run (build_forecast base seed cs rb oh) g2)
  /\ (forall mri seed dw cs rb oh g1 g2,
        run (weekly_series mri seed dw cs rb oh) g1
        = run (weekly_series mri seed dw cs rb oh) g2)
  /\ (forall payload g1 g2,
        fst (run (predict payload) g1) = fst (run (predict payload) g2)).
Proof.
  split; [|split].
  - intros. rewrite !build_forecast_reseeds. reflexivity.
  - intros. rewrite !weekly_series_reseeds. reflexivity.
  - intros payload g1 g2. destruct (compute_mri payload) as [mri|e] eqn:Hmri.
    + destruct (compute_mri_extracts payload mri Hmri) as (m & Hm).
      rewrite !(predict_after_mri payload mri m _ Hmri Hm), !run_lift_bind.
      destruct (risk_score_of _ _ _ _) as [rs|e]; [|reflexivity].
      rewrite !run_lift_bind. destruct (seed_of _ _ _) as [seed|e]; [|reflexivity].
      rewrite !run_bind, !build_forecast_reseeds.
      destruct (run (forecast_loop _ _ _ _ _ _) _) as [[fc|e] g']; [|reflexivity].
      reflexivity.
    + unfold predict. rewrite !run_lift_bind, Hmri. reflexivity.
Qed.

(** C6, as the code has it: once [compute_mri] has returned [mri], the risk
    score is [clamp(100 - mri + context_switching*0.12 + overload_hours*0.18
    - recovery_breaks*0.1)]; the forecast seed is [int(mri + risk_score +
    stress)], a truncation toward zero; and when that seed exists [predict]
    returns a response whose forecast is [build_forecast] on the risk score
    and that seed, and whose weekly series is [weekly_series] on the MRI and
    that seed plus 7. *)
Theorem predict_seeds {RT : PyRuntime} (payload : gmap string pyval) (mri : Z)
    (m : metrics) (seed : Z) (g : rng) :
  compute_mri payload = Ok mri ->
  extract_metrics payload = Ok m ->
  let risk_score :=
    clamp (PFloat (PyFloat.of_Z (100 - mri) + context_switching m * 0.12
                   + overload_hours m * 0.18 - recovery_breaks m * 0.1)%float)
          (PInt 0) (PInt 100) in
  (s ← py_add (PInt mri) risk_score;
   s ← py_add_val s (get payload "stress" (VInt 5));
   py_int s) = Ok seed ->
  exists forecast weekly g1 g2 resp,
    run (build_forecast risk_score seed (context_switching m) (recovery_breaks m)
           (overload_hours m)) g = (Ok forecast, g1)
    /\ run (weekly_series mri (seed + 7) (deep_work m) (context_switching m)
              (recovery_breaks m) (overload_hours m)) g1 = (Ok weekly, g2)
    /\ run (predict payload) g = (Ok resp, g2)
    /\ resp_forecast resp = forecast /\ resp_weekly resp = weekly.
Proof.
  intros Hmri Hm risk_score Hseed.
  pose proof (compute_mri_range payload mri Hmri) as Hr.
  fold (clamp_default (PFloat (PyFloat.of_Z (100 - mri) + context_switching m * 0.12
                               + overload_hours m * 0.18 - recovery_breaks m * 0.1)%float))
    in risk_score.
  destruct (forecast_loop_total risk_score (context_switching m) (recovery_breaks m)
              (overload_hours m) (py_range 7)
              (fun day Hd => day_base_clamped _ day (py_range_small day Hd))
              [] (rng_seed seed)) as (fc & Hfc & _).
  rewrite <- build_forecast_reseeds with (g := g) in Hfc. cbn [app] in Hfc.
  set (g1 := after_draws (length (py_range 7)) (rng_seed seed)) in Hfc.
  destruct (weekly_loop_total mri _ (deep_work m) (context_switching m) (recovery_breaks m)
              (overload_hours m) labels (small_int_converts mri Hr) [] []
              (rng_seed (seed + 7))) as (ms & ls & Hw & _).
  cbn [app] in Hw.
  set (g2 := after_draws (2 * length labels) (rng_seed (seed + 7))) in Hw.
  assert (Hws : run (weekly_series mri (seed + 7) (deep_work m) (context_switching m)
                       (recovery_breaks m) (overload_hours m)) g1
                = (Ok {| weekly_labels := labels; weekly_mri := ms; weekly_load := ls |}, g2)).
  { rewrite weekly_series_reseeds, Hw. reflexivity. }
  exists fc, {| weekly_labels := labels; weekly_mri := ms; weekly_load := ls |}, g1, g2.
  eexists. split; [exact Hfc|]. split; [exact Hws|].
  rewrite (predict_after_mri payload mri m g Hmri Hm).
  rewrite run_lift_bind, risk_score_of_clamped by exact Hr.
  fold risk_score. rewrite run_lift_bind. unfold seed_of. rewrite Hseed.
  rewrite run_bind, Hfc, run_bind, Hws.
  repeat split; reflexivity.
Qed.

(** C6 exercised on the empty payload: MRI 61, risk score 50, seed 116. *)
Lemma predict_seeds_witness :
  compute_mri (RT := sample_runtime) ∅ = Ok 61
  /\ seed_of 61 (PFloat 50) ∅ = Ok 116
  /\ exists resp,
       fst (run (predict (RT := sample_runtime) ∅) 0) = Ok resp
       /\ fst (run (build_forecast (RT := sample_runtime) (PFloat 50) 116 50 40 50) 0)
          = Ok (resp_forecast resp).
Proof.
  split; [vm_compute; reflexivity|]. split; [vm_compute; reflexivity|].
  destruct (predict_seeds (RT := sample_runtime) ∅ 61 default_metrics 116 0)
    as (fc & w & g1 & g2 & resp & Hf & Hw & Hp & Hrf & Hrw).
  - vm_compute. reflexivity.
  - vm_compute. reflexivity.
  - vm_compute. reflexivity.
  - exists resp. rewrite Hp, Hrf. split; [reflexivity|].
    vm_compute in Hf. vm_compute. injection Hf as <- _. reflexivity.
Defined.

(** C6 as stated fails where the sum is negative and fractional: on
    [{"stress": -1000.5}] the MRI is 100, the risk score 11.0 and the sum
    -889.5, which [int] truncates to -889 while its floor is -890. *)
Lemma seed_truncates_where_floor_differs :
  compute_mri (RT := sample_runtime) {[ "stress" := VFloat (-1000.5) ]} = Ok 100
  /\ risk_score_of 100 50 50 40 = Ok (PFloat 11)
  /\ (s ← py_add (PInt 100) (PFloat 11);
      py_add_val s (get {[ "stress" := VFloat (-1000.5) ]} "stress" (VInt 5)))
     = Ok (PFloat (-889.5))
  /\ seed_of 100 (PFloat 11) {[ "stress" := VFloat (-1000.5) ]} = Ok (-889)
  /\ py_floor (PFloat (-889.5)) = Ok (-890).
Proof. repeat split; vm_compute; reflexivity. Qed.

Lemma confidence_checked (mri : Z) : 0 <= mri <= 100 -> confidence_check mri = true.
Proof.
  intros Hz.
  assert (Hall : forallb confidence_check (seqZ 0 101) = true) by (vm_compute; reflexivity).
  rewrite forallb_forall in Hall.
  apply Hall, list_elem_of_In, elem_of_seqZ. lia.
Qed.

(** C8: for every MRI [compute_mri] returns, the confidence of the response
    is [clamp(0.7 + (mri/100)*0.25, 0.7, 0.95)] rounded to two decimals: the
    float nearest to [k/100] for an integer [k] of 70..95, which compares
    within [0.7, 0.95]. *)
Theorem confidence_range {RT : PyRuntime} (payload : gmap string pyval) (mri : Z) :
  compute_mri payload = Ok mri ->
  exists x c k,
    clamp (PFloat (0.7 + int_truediv mri 100 * 0.25)%float) (PFloat 0.7) (PFloat 0.95)
      = PFloat x
    /\ c = py_round2 x
    /\ confidence_of mri = PFloat c
    /\ 70 <= k <= 95 /\ c = (PyFloat.of_Z k / 100)%float
    /\ (0.7 <=? c)%float = true /\ (c <=? 0.95)%float = true
    /\ forall g g' resp, run (predict payload) g = (Ok resp, g') ->
                         resp_confidence resp = PFloat c.
Proof.
  intros Hmri.
  pose proof (confidence_checked mri (compute_mri_range payload mri Hmri)) as Hc.
  unfold confidence_check in Hc.
  destruct (clamp _ _ _) as [z|x] eqn:Hx; [discriminate|].
  destruct (Prim2SF x) as [s|s| |s mx e] eqn:Hsf; try discriminate.
  apply andb_true_iff in Hc as [Hc H4]. apply andb_true_iff in Hc as [Hc H3].
  apply andb_true_iff in Hc as [H1 H2]. apply Z.leb_le in H1, H2.
  assert (Hconf : confidence_of mri = PFloat (py_round2 x)).
  { unfold confidence_of. cbv zeta. rewrite Hx. reflexivity. }
  exists x, (py_round2 x), (hundredths x).
  repeat split; try assumption.
  - unfold py_round2. rewrite Hsf. reflexivity.
  - intros g g' resp Hrun.
    destruct (predict_response payload g g' resp Hrun) as (mri' & Hmri' & _ & Hrc).
    rewrite Hrc. replace mri' with mri by congruence. exact Hconf.
Qed.

(** C8 exercised on the empty payload: MRI 61, confidence 0.85. *)
Lemma confidence_range_witness :
  compute_mri (RT := sample_runtime) ∅ = Ok 61
  /\ exists c, confidence_of 61 = PFloat c
               /\ (0.7 <=? c)%float = true /\ (c <=? 0.95)%float = true.
Proof.
  split; [vm_compute; reflexivity|].
  destruct (confidence_range (RT := sample_runtime) ∅ 61)
    as (x & c & k & _ & _ & Hc & _ & _ & Hlo & Hhi & _).
  - vm_compute. reflexivity.
  - exists c. auto.
Defined.

(** * The metric extractor *)

(** C7, as the code has it: when some recognized key is present with a value
    [float()] rejects, the extraction raises the exception of [float()] on
    such a value - a [TypeError], [ValueError] or [OverflowError] built from
    the value, with no trace of the key; when no recognized key holds such a
    value, the extraction succeeds and every recognized key carries the
    conversion of the payload's value, or of its default. *)
Theorem extract_metrics_outcome {RT : PyRuntime} (payload : gmap string pyval) :
  ((exists k d v, (k, d) ∈ metric_defaults /\ payload !! k = Some v
                  /\ is_ok (py_float v) = false) ->
   exists k d v e, (k, d) ∈ metric_defaults /\ payload !! k = Some v
                   /\ py_float v = Raise e /\ extract_metrics payload = Raise e)
  /\ ((forall k d v, (k, d) ∈ metric_defaults -> payload !! k = Some v ->
                     is_ok (py_float v) = true) ->
      exists m, extract_metrics payload = Ok m
                /\ forall k d, (k, d) ∈ metric_defaults ->
                   exists f, py_float (get payload k (VInt d)) = Ok f
                             /\ metric m k = Some f).
Proof.
  split.
  - intros (k & d & v & Hin & Hk & Hbad).
    destruct (extract_metrics payload) as [m|e] eqn:Hm.
    + destruct (extract_metrics_fields payload m Hm k d Hin) as (f & Hf & _).
      rewrite (get_present _ _ _ _ Hk) in Hf. rewrite Hf in Hbad. discriminate.
    + destruct (extract_metrics_raises payload e Hm) as (k' & d' & v' & Hin' & Hk' & Hv').
      exists k', d', v', e. auto.
  - intros Hall.
    destruct (extract_metrics_succeeds payload) as (m & Hm).
    + intros k d Hin. unfold get. destruct (payload !! k) as [v|] eqn:Hk.
      * exact (Hall k d v Hin Hk).
      * rewrite (default_converts k d Hin). reflexivity.
    + exists m. split; [exact Hm|]. exact (extract_metrics_fields payload m Hm).
Qed.

(** C7 as stated fails: the exception tells the value's type, not the key.
    A [null] under ["sleep"] and a [null] under ["hrv"] raise one and the
    same [TypeError], so no reading of it names the offending key. *)
Lemma extract_error_names_no_key :
  extract_metrics (RT := sample_runtime) {[ "sleep" := VNone ]}
    = Raise (TypeError "float() argument must be a string or a real number, not 'NoneType'")
  /\ extract_metrics (RT := sample_runtime) {[ "hrv" := VNone ]}
     = Raise (TypeError "float() argument must be a string or a real number, not 'NoneType'").
Proof. split; vm_compute; reflexivity. Qed.

(** The same exception under any runtime. *)
Lemma extract_null_any_runtime {RT : PyRuntime} :
  extract_metrics {[ "sleep" := VNone ]} = extract_metrics {[ "hrv" := VNone ]}
  /\ extract_metrics {[ "sleep" := VNone ]}
     = Raise (TypeError "float() argument must be a string or a real number, not 'NoneType'").
Proof. split; vm_compute; reflexivity. Qed.

(** The MRI of the payload [{"stress": -1000.5}] under any runtime. *)
Lemma negative_stress_mri_any_runtime {RT : PyRuntime} :
  compute_mri {[ "stress" := VFloat (-1000.5) ]} = Ok 100.
Proof. vm_compute. reflexivity. Qed.


(** * Further properties of the engine *)

(** ** [clamp] beyond the default bounds *)

(** On ints [clamp] is [max(low, min(high, value))]: within ordered bounds
    the result lies between them and a value already between them is
    returned unchanged; with the bounds inverted the result is [low]. *)
Theorem clamp_int_bounds (value low high : Z) :
  clamp (PInt value) (PInt low) (PInt high) = PInt (Z.max low (Z.min high value))
  /\ (low <= high -> low <= Z.max low (Z.min high value) <= high)
  /\ (low <= value <= high -> clamp (PInt value) (PInt low) (PInt high) = PInt value)
  /\ (high < low -> clamp (PInt value) (PInt low) (PInt high) = PInt low).
Proof.
  assert (H : clamp (PInt value) (PInt low) (PInt high) = PInt (Z.max low (Z.min high value))).
  { unfold clamp, py_min, py_max. cbn [py_lt].
    destruct (value <? high) eqn:H1; cbn [py_lt].
    - apply Z.ltb_lt in H1. destruct (low <? value) eqn:H2;
        [apply Z.ltb_lt in H2 | apply Z.ltb_ge in H2]; f_equal; lia.
    - apply Z.ltb_ge in H1. destruct (low <? high) eqn:H2;
        [apply Z.ltb_lt in H2 | apply Z.ltb_ge in H2]; f_equal; lia. }
  rewrite H. repeat split; intros; try f_equal; lia.
Qed.

Lemma lt_Z_nan (f : float) (z : Z) : PyFloat.is_nan f = true -> PyFloat.lt_Z f z = false.
Proof.
  unfold PyFloat.is_nan, PyFloat.lt_Z. destruct (Prim2SF f); try discriminate. reflexivity.
Qed.

(** With the default bounds a float is returned only when it lies strictly
    between 0 and 100; anything else, a NaN included, becomes one of the
    two int bounds: a NaN becomes 100, and no outcome is a NaN. *)
Theorem clamp_float_outcomes (f : float) :
  (clamp_default (PFloat f) = PInt 0 \/ clamp_default (PFloat f) = PInt 100
   \/ (clamp_default (PFloat f) = PFloat f /\ PyFloat.is_finite f = true
       /\ PyFloat.lt_Z f 100 = true /\ PyFloat.Z_lt 0 f = true))
  /\ (PyFloat.is_nan f = true -> clamp_default (PFloat f) = PInt 100)
  /\ (PyFloat.lt_Z f 100 = false -> clamp_default (PFloat f) = PInt 100)
  /\ (PyFloat.lt_Z f 100 = true -> PyFloat.Z_lt 0 f = false ->
      clamp_default (PFloat f) = PInt 0).
Proof.
  assert (Hhi : PyFloat.lt_Z f 100 = false -> clamp_default (PFloat f) = PInt 100).
  { intros H. unfold clamp_default, clamp, py_min, py_max. cbn [py_lt]. rewrite H.
    reflexivity. }
  repeat split.
  - destruct (clamp_default_float f) as [H|[H|(H & H1 & H2)]]; auto.
    right; right. repeat split; try assumption.
    unfold PyFloat.is_finite, PyFloat.is_nan, PyFloat.is_inf.
    unfold PyFloat.lt_Z, PyFloat.Z_lt in H1, H2.
    destruct (Prim2SF f) as [s|s| |s m e]; try discriminate; try reflexivity.
    destruct s; discriminate.
  - intros H. apply Hhi, lt_Z_nan, H.
  - exact Hhi.
  - intros H1 H2. unfold clamp_default, clamp, py_min, py_max. cbn [py_lt].
    rewrite H1. cbn [py_lt]. rewrite H2. reflexivity.
Qed.

(** Clamping twice is clamping once, for an int and for a float. *)
Theorem clamp_idempotent (value : pynum) :
  clamp_default (clamp_default value) = clamp_default value.
Proof.
  destruct value as [z|f].
  - rewrite !clamp_default_int. f_equal. lia.
  - destruct (clamp_default_float f) as [H|[H|(H & H1 & H2)]]; rewrite H.
    + reflexivity.
    + reflexivity.
    + exact H.
Qed.

(** ** What [compute_mri] reads of a payload *)

Section ReadingFacts.

Context {RT : PyRuntime}.

(** The payload enters [compute_mri] only through [float()] of the thirteen
    lookups. *)
Lemma compute_mri_through_float (p1 p2 : gmap string pyval) :
  (forall k d, (k, d) ∈ metric_defaults ->
               py_float (get p1 k (VInt d)) = py_float (get p2 k (VInt d))) ->
  compute_mri p1 = compute_mri p2.
Proof.
  intros H. unfold compute_mri.
  rewrite (H "sleep" 5 ltac:(in_defaults)), (H "switching" 5 ltac:(in_defaults)),
    (H "stress" 5 ltac:(in_defaults)), (H "workload" 5 ltac:(in_defaults)),
    (H "hrv" 5 ltac:(in_defaults)), (H "deep_work" 50 ltac:(in_defaults)),
    (H "deep_work_hours" 4 ltac:(in_defaults)),
    (H "context_switching" 50 ltac:(in_defaults)),
    (H "context_hours" 3 ltac:(in_defaults)), (H "recovery_breaks" 40 ltac:(in_defaults)),
    (H "recovery_hours" 2 ltac:(in_defaults)), (H "overload_hours" 50 ltac:(in_defaults)),
    (H "overload_hours_count" 4 ltac:(in_defaults)).
  reflexivity.
Qed.

Lemma get_agree (p1 p2 : gmap string pyval) k d :
  p1 !! k = p2 !! k -> get p1 k d = get p2 k d.
Proof. unfold get. intros ->. reflexivity. Qed.

Lemma get_insert (p : gmap string pyval) k k' v d :
  get (<[k := v]> p) k' d = if decide (k = k') then v else get p k' d.
Proof. unfold get. rewrite lookup_insert. destruct (decide (k = k')); reflexivity. Qed.

End ReadingFacts.

(** Keys other than the thirteen recognized ones are never read: two
    payloads that agree on the recognized keys get the same MRI, or the same
    exception. *)
Theorem compute_mri_ignores_other_keys {RT : PyRuntime} (p1 p2 : gmap string pyval) :
  (forall k d, (k, d) ∈ metric_defaults -> p1 !! k = p2 !! k) ->
  compute_mri p1 = compute_mri p2.
Proof.
  intros H. apply compute_mri_through_float. intros k d Hin.
  rewrite (get_agree p1 p2 k (VInt d) (H k d Hin)). reflexivity.
Qed.

(** An unrecognized key added to a payload changes nothing. *)
Lemma compute_mri_ignores_other_keys_witness :
  compute_mri (RT := sample_runtime) {[ "sleep" := VInt 8; "user" := VStr "ann" ]}
  = compute_mri (RT := sample_runtime) {[ "sleep" := VInt 8 ]}.
Proof.
  apply (compute_mri_ignores_other_keys (RT := sample_runtime)).
  intros k d Hin. unfold metric_defaults in Hin.
  repeat (apply elem_of_cons in Hin as [Hin|Hin];
          [injection Hin as -> ->; vm_compute; reflexivity|]).
  apply elem_of_nil in Hin. contradiction.
Defined.

(** A value counts through [float()] alone: replacing the value under a key
    by one that [float()] converts to the same float (8 by 8.0, [true] by 1,
    a string by the number it writes) leaves the MRI unchanged. *)
Theorem compute_mri_reads_through_float {RT : PyRuntime} (p : gmap string pyval)
    (k : string) (v1 v2 : pyval) :
  py_float v1 = py_float v2 ->
  compute_mri (<[k := v1]> p) = compute_mri (<[k := v2]> p).
Proof.
  intros H. apply compute_mri_through_float. intros k' d _.
  rewrite !get_insert. destruct (decide (k = k')); [exact H | reflexivity].
Qed.

(** The string "8", the int 8 and the float 8.0 under ["sleep"]. *)
Lemma compute_mri_reads_through_float_witness :
  py_float (RT := digits_runtime) (VStr "8") = py_float (RT := digits_runtime) (VInt 8)
  /\ compute_mri (RT := digits_runtime) (<["sleep" := VStr "8"]> ∅)
     = compute_mri (RT := digits_runtime) (<["sleep" := VInt 8]> ∅).
Proof.
  split; [vm_compute; reflexivity|].
  apply (compute_mri_reads_through_float (RT := digits_runtime)).
  vm_compute. reflexivity.
Defined.

(** ** The order of the conversions *)

(** When several recognized values are bad, the exception is that of the
    first bad one in the fixed order of the keys (sleep, switching, stress,
    ...): if every key before position [i] converts and the key at [i] makes
    [float()] raise, [compute_mri] raises that very exception. *)
Theorem compute_mri_first_error {RT : PyRuntime} (p : gmap string pyval)
    (i : nat) (k : string) (d : Z) (e : pyexc) :
  metric_defaults !! i = Some (k, d) ->
  (forall j k' d', (j < i)%nat -> metric_defaults !! j = Some (k', d') ->
                   is_ok (py_float (get p k' (VInt d'))) = true) ->
  py_float (get p k (VInt d)) = Raise e ->
  compute_mri p = Raise e.
Proof.
  intros Hi Hbefore He.
  assert (Hok : forall j k' d', (j < i)%nat -> metric_defaults !! j = Some (k', d') ->
                  exists f, py_float (get p k' (VInt d')) = Ok f).
  { intros j k' d' Hj Hjk. specialize (Hbefore j k' d' Hj Hjk).
    destruct (py_float (get p k' (VInt d'))) as [f|]; [eauto | discriminate]. }
  clear Hbefore. unfold compute_mri.
  do 13 (destruct i as [|i];
         [ cbn in Hi; injection Hi as <- <-; rewrite He; reflexivity
         | lazymatch goal with
           | |- @mbind _ _ _ _ _ (py_float (get _ ?k' (VInt ?d'))) = _ =>
               let f := fresh "f" in
               let Hf := fresh "Hf" in
               first
                 [ destruct (Hok 0%nat k' d' ltac:(lia) eq_refl) as (f & Hf)
                 | destruct (Hok 1%nat k' d' ltac:(lia) eq_refl) as (f & Hf)
                 | destruct (Hok 2%nat k' d' ltac:(lia) eq_refl) as (f & Hf)
                 | destruct (Hok 3%nat k' d' ltac:(lia) eq_refl) as (f & Hf)
                 | destruct (Hok 4%nat k' d' ltac:(lia) eq_refl) as (f & Hf)
                 | destruct (Hok 5%nat k' d' ltac:(lia) eq_refl) as (f & Hf)
                 | destruct (Hok 6%nat k' d' ltac:(lia) eq_refl) as (f & Hf)
                 | destruct (Hok 7%nat k' d' ltac:(lia) eq_refl) as (f & Hf)
                 | destruct (Hok 8%nat k' d' ltac:(lia) eq_refl) as (f & Hf)
                 | destruct (Hok 9%nat k' d' ltac:(lia) eq_refl) as (f & Hf)
                 | destruct (Hok 10%nat k' d' ltac:(lia) eq_refl) as (f & Hf)
                 | destruct (Hok 11%nat k' d' ltac:(lia) eq_refl) as (f & Hf)
                 | destruct (Hok 12%nat k' d' ltac:(lia) eq_refl) as (f & Hf) ];
               rewrite Hf; cbn [mbind result_bind]
           end ]).
  cbn in Hi. discriminate Hi.
Qed.

(** Nulls under "stress" and under "hrv": the exception is that of "stress". *)
Lemma compute_mri_first_error_witness :
  compute_mri (RT := sample_runtime) {[ "stress" := VList []; "hrv" := VNone ]}
  = Raise (TypeError "float() argument must be a string or a real number, not 'list'").
Proof.
  apply (compute_mri_first_error (RT := sample_runtime) _ 2 "stress" 5).
  - reflexivity.
  - intros j k' d' Hj Hjk.
    destruct j as [|[|j]]; [injection Hjk as <- <- | injection Hjk as <- <- | lia];
      vm_compute; reflexivity.
  - vm_compute. reflexivity.
Defined.

(** ** Values that are not finite *)

Section NotFinite.

#[local] Open Scope float_scope.

(** Case analysis on the two operands of an operation whose left (or right)
    operand [x] is assumed away unless it is a NaN or an infinity. *)
Ltac by_float_cases spec x y :=
  unfold PyFloat.is_finite, PyFloat.is_nan, PyFloat.is_inf;
  rewrite spec; unfold SF64add, SFadd, SF64sub, SFsub, SF64mul, SFmul;
  destruct (Prim2SF x) as [sx|sx| |sx mx ex]; try discriminate;
  destruct (Prim2SF y) as [sy|sy| |sy my ey]; intros _;
  try reflexivity; destruct sx, sy; reflexivity.

Lemma not_finite_add_l x y : PyFloat.is_finite x = false -> PyFloat.is_finite (x + y) = false.
Proof. by_float_cases add_spec x y. Qed.

Lemma not_finite_add_r x y : PyFloat.is_finite x = false -> PyFloat.is_finite (y + x) = false.
Proof. by_float_cases add_spec x y. Qed.

Lemma not_finite_sub_l x y : PyFloat.is_finite x = false -> PyFloat.is_finite (x - y) = false.
Proof. by_float_cases sub_spec x y. Qed.

Lemma not_finite_sub_r x y : PyFloat.is_finite x = false -> PyFloat.is_finite (y - x) = false.
Proof. by_float_cases sub_spec x y. Qed.

Lemma not_finite_mul_l x y : PyFloat.is_finite x = false -> PyFloat.is_finite (x * y) = false.
Proof. by_float_cases mul_spec x y. Qed.

Ltac by_nan_cases spec x y :=
  unfold PyFloat.is_nan;
  rewrite spec; unfold SF64add, SFadd, SF64sub, SFsub, SF64mul, SFmul;
  destruct (Prim2SF x); try discriminate; intros _;
  destruct (Prim2SF y); reflexivity.

Lemma nan_add_l x y : PyFloat.is_nan x = true -> PyFloat.is_nan (x + y) = true.
Proof. by_nan_cases add_spec x y. Qed.

Lemma nan_add_r x y : PyFloat.is_nan x = true -> PyFloat.is_nan (y + x) = true.
Proof. by_nan_cases add_spec x y. Qed.

Lemma nan_sub_l x y : PyFloat.is_nan x = true -> PyFloat.is_nan (x - y) = true.
Proof. by_nan_cases sub_spec x y. Qed.

Lemma nan_sub_r x y : PyFloat.is_nan x = true -> PyFloat.is_nan (y - x) = true.
Proof. by_nan_cases sub_spec x y. Qed.

Lemma nan_mul_l x y : PyFloat.is_nan x = true -> PyFloat.is_nan (x * y) = true.
Proof. by_nan_cases mul_spec x y. Qed.

End NotFinite.

Create HintDb not_finite.
#[local] Hint Resolve not_finite_add_l not_finite_add_r not_finite_sub_l not_finite_sub_r
  not_finite_mul_l : not_finite.
Create HintDb nan.
#[local] Hint Resolve nan_add_l nan_add_r nan_sub_l nan_sub_r nan_mul_l : nan.

(** Splits [metric m k = Some f] into the thirteen keys. *)
Ltac each_metric H :=
  unfold metric in H;
  repeat (lazymatch type of H with
          | (if ?c then _ else _) = _ => destruct c; [injection H as <-|]
          end);
  [..|discriminate H].

Lemma score_not_finite (m : metrics) (k : string) (f : float) :
  metric m k = Some f -> PyFloat.is_finite f = false ->
  PyFloat.is_finite (score_of m) = false.
Proof.
  intros Hk Hf. unfold score_of. cbv zeta. each_metric Hk; auto 12 with not_finite.
Qed.

Lemma score_nan (m : metrics) (k : string) (f : float) :
  metric m k = Some f -> PyFloat.is_nan f = true -> PyFloat.is_nan (score_of m) = true.
Proof.
  intros Hk Hf. unfold score_of. cbv zeta. each_metric Hk; auto 12 with nan.
Qed.

Lemma py_round_nan (f : float) :
  PyFloat.is_nan f = true ->
  py_round f = Raise (ValueError "cannot convert float NaN to integer").
Proof.
  unfold PyFloat.is_nan, py_round. destruct (Prim2SF f); try discriminate. reflexivity.
Qed.

Lemma py_round_not_finite_cases (f : float) :
  PyFloat.is_finite f = false ->
  py_round f = Raise (ValueError "cannot convert float NaN to integer")
  \/ py_round f = Raise (OverflowError "cannot convert float infinity to integer").
Proof.
  unfold PyFloat.is_finite, PyFloat.is_nan, PyFloat.is_inf, py_round.
  destruct (Prim2SF f); try discriminate; auto.
Qed.

(** A recognized value that extracts to a NaN or an infinity (the JSON
    tokens [NaN] and [Infinity], or strings such as "nan" and "inf") always
    makes [compute_mri] raise: the [ValueError] of [round] on a NaN score or
    its [OverflowError] on an infinite one, and for a NaN value always the
    [ValueError]. *)
Theorem not_finite_metric_raises {RT : PyRuntime} (p : gmap string pyval) (m : metrics)
    (k : string) (f : float) :
  extract_metrics p = Ok m -> metric m k = Some f -> PyFloat.is_finite f = false ->
  (compute_mri p = Raise (ValueError "cannot convert float NaN to integer")
   \/ compute_mri p = Raise (OverflowError "cannot convert float infinity to integer"))
  /\ (PyFloat.is_nan f = true ->
      compute_mri p = Raise (ValueError "cannot convert float NaN to integer")).
Proof.
  intros Hm Hk Hf. rewrite compute_mri_extract, Hm. cbn [mbind result_bind]. split.
  - destruct (py_round_not_finite_cases _ (score_not_finite m k f Hk Hf)) as [H|H];
      rewrite H; auto.
  - intros Hnan. rewrite (py_round_nan _ (score_nan m k f Hk Hnan)). reflexivity.
Qed.

(** A payload whose "hrv" is a NaN. *)
Lemma not_finite_metric_raises_witness :
  compute_mri (RT := sample_runtime) {[ "hrv" := VFloat nan ]}
  = Raise (ValueError "cannot convert float NaN to integer").
Proof.
  destruct (not_finite_metric_raises (RT := sample_runtime) {[ "hrv" := VFloat nan ]}
              {| sleep := 5; switching := 5; stress := 5; workload := 5; hrv := nan;
                 deep_work := 50; deep_work_hours := 4; context_switching := 50;
                 context_hours := 3; recovery_breaks := 40; recovery_hours := 2;
                 overload_hours := 50; overload_hours_count := 4 |} "hrv" nan)
    as [_ H].
  - vm_compute. reflexivity.
  - reflexivity.
  - reflexivity.
  - apply H. reflexivity.
Defined.

(** ** What [predict] returns, raises and reads *)

Section ResponseFacts.

Context {RT : PyRuntime}.
#[local] Existing Instance py_ret.
#[local] Existing Instance py_bind.

(** The forecast loop on a base that came out of [clamp]. *)
Lemma build_forecast_clamped (f : float) (seed : Z) (cs rb oh : float) (g : rng) :
  exists fc,
    run (build_forecast (clamp_default (PFloat f)) seed cs rb oh) g
      = (Ok fc, after_draws 7 (rng_seed seed))
    /\ length fc = 7%nat /\ Forall (fun v => 0 <= v <= 100) fc.
Proof.
  rewrite build_forecast_reseeds.
  destruct (forecast_loop_total (clamp_default (PFloat f)) cs rb oh (py_range 7)
              (fun day Hd => day_base_clamped f day (py_range_small day Hd))
              [] (rng_seed seed)) as (fc & Hrun & Hlen & Hnth).
  change (length (py_range 7)) with 7%nat in Hrun, Hlen. cbn [app] in Hrun.
  exists fc. split; [exact Hrun|]. split; [exact Hlen|].
  apply Forall_lookup. intros i v Hi.
  assert (i < 7)%nat as Hlt by (rewrite <- Hlen; eapply lookup_lt_Some; exact Hi).
  destruct (Hnth i (Z.of_nat i) (py_range_lookup 7 i Hlt)) as (x & v' & _ & Hv' & Hr & _).
  congruence.
Qed.

(** The weekly loop on an MRI of [0, 100]. *)
Lemma weekly_series_small (mri seed : Z) (dw cs rb oh : float) (g : rng) :
  0 <= mri <= 100 ->
  exists w,
    run (weekly_series mri seed dw cs rb oh) g = (Ok w, after_draws 14 (rng_seed seed))
    /\ weekly_labels w = labels
    /\ length (weekly_mri w) = 7%nat /\ length (weekly_load w) = 7%nat
    /\ Forall (fun v => 0 <= v <= 100) (weekly_mri w)
    /\ Forall (fun v => 0 <= v <= 100) (weekly_load w).
Proof.
  intros Hr. rewrite weekly_series_reseeds.
  destruct (weekly_loop_total mri _ dw cs rb oh labels (small_int_converts mri Hr) [] []
              (rng_seed seed)) as (ms & ls & Hrun & Hl1 & Hl2 & Hnth).
  change (length labels) with 7%nat in Hrun, Hl1, Hl2. cbn [app] in Hrun.
  rewrite Hrun. eexists. split; [reflexivity|]. cbn [weekly_labels weekly_mri weekly_load].
  assert (Hlab : forall d, (d < 7)%nat -> exists s, labels !! d = Some s).
  { intros d Hd. apply lookup_lt_is_Some_2. exact Hd. }
  repeat split; try assumption.
  - apply Forall_lookup. intros i v Hi.
    assert (i < 7)%nat as Hlt by (rewrite <- Hl1; eapply lookup_lt_Some; exact Hi).
    destruct (Hlab i Hlt) as (s & Hs).
    destruct (Hnth i s Hs) as (a & y & l & Ha & _ & Hra & _). congruence.
  - apply Forall_lookup. intros i v Hi.
    assert (i < 7)%nat as Hlt by (rewrite <- Hl2; eapply lookup_lt_Some; exact Hi).
    destruct (Hlab i Hlt) as (s & Hs).
    destruct (Hnth i s Hs) as (a & y & l & _ & Hl & _ & Hrl & _). congruence.
Qed.

(** [predict], once [compute_mri] has returned, hangs on the seed alone. *)
Lemma predict_after_seed (p : gmap string pyval) (mri : Z) (m : metrics) (g : rng) :
  compute_mri p = Ok mri -> extract_metrics p = Ok m ->
  let rs :=
    clamp_default (PFloat (PyFloat.of_Z (100 - mri) + context_switching m * 0.12
                           + overload_hours m * 0.18 - recovery_breaks m * 0.1)%float) in
  match seed_of mri rs p with
  | Raise e => run (predict p) g = (Raise e, g)
  | Ok seed =>
      exists fc w,
        run (predict p) g
        = (Ok {|
             resp_mri := mri;
             resp_risk := {| risk_label := label (risk_package mri);
                             risk_level := level (risk_package mri);
                             risk_pill := pill (risk_package mri) |};
             resp_forecast_label := forecast_label (risk_package mri);
             resp_confidence := confidence_of mri;
             resp_forecast := fc;
             resp_weekly := w;
             resp_coach_tip := coach_tip (risk_package mri);
             resp_recovery_now := recovery_now (risk_package mri)
           |}, after_draws 14 (rng_seed (seed + 7)))
        /\ length fc = 7%nat /\ Forall (fun v => 0 <= v <= 100) fc
        /\ weekly_labels w = labels
        /\ length (weekly_mri w) = 7%nat /\ length (weekly_load w) = 7%nat
        /\ Forall (fun v => 0 <= v <= 100) (weekly_mri w)
        /\ Forall (fun v => 0 <= v <= 100) (weekly_load w)
  end.
Proof.
  intros Hmri Hm rs.
  pose proof (compute_mri_range p mri Hmri) as Hr.
  rewrite (predict_after_mri p mri m g Hmri Hm).
  rewrite run_lift_bind, risk_score_of_clamped by exact Hr. fold rs.
  rewrite run_lift_bind. destruct (seed_of mri rs p) as [seed|e]; [|reflexivity].
  destruct (build_forecast_clamped
              (PyFloat.of_Z (100 - mri) + context_switching m * 0.12
               + overload_hours m * 0.18 - recovery_breaks m * 0.1)%float
              seed (context_switching m) (recovery_breaks m)
              (overload_hours m) g) as (fc & Hfc & Hlen & Hall).
  fold rs in Hfc.
  destruct (weekly_series_small mri (seed + 7) (deep_work m) (context_switching m)
              (recovery_breaks m) (overload_hours m) (after_draws 7 (rng_seed seed)) Hr)
    as (w & Hw & Hrest).
  exists fc, w. rewrite run_bind, Hfc, run_bind, Hw. auto.
Qed.

End ResponseFacts.

(** Every response [predict] returns is well formed: its MRI is the one
    [compute_mri] returns, an integer of [0, 100]; the risk fields, forecast
    label, coach tip and recovery hint are those of the tier of that MRI; the
    confidence is the one computed from it; the forecast holds seven
    integers of [0, 100]; and the weekly series holds the seven fixed labels
    and two lists of seven integers of [0, 100]. *)
Theorem predict_response_well_formed {RT : PyRuntime} (p : gmap string pyval)
    (g g' : rng) (resp : response) :
  run (predict p) g = (Ok resp, g') ->
  compute_mri p = Ok (resp_mri resp) /\ 0 <= resp_mri resp <= 100
  /\ resp_risk resp = {| risk_label := label (risk_package (resp_mri resp));
                         risk_level := level (risk_package (resp_mri resp));
                         risk_pill := pill (risk_package (resp_mri resp)) |}
  /\ resp_forecast_label resp = forecast_label (risk_package (resp_mri resp))
  /\ resp_coach_tip resp = coach_tip (risk_package (resp_mri resp))
  /\ resp_recovery_now resp = recovery_now (risk_package (resp_mri resp))
  /\ resp_confidence resp = confidence_of (resp_mri resp)
  /\ length (resp_forecast resp) = 7%nat
  /\ Forall (fun v => 0 <= v <= 100) (resp_forecast resp)
  /\ weekly_labels (resp_weekly resp) = ["Mon"; "Tue"; "Wed"; "Thu"; "Fri"; "Sat"; "Sun"]
  /\ length (weekly_mri (resp_weekly resp)) = 7%nat
  /\ length (weekly_load (resp_weekly resp)) = 7%nat
  /\ Forall (fun v => 0 <= v <= 100) (weekly_mri (resp_weekly resp))
  /\ Forall (fun v => 0 <= v <= 100) (weekly_load (resp_weekly resp)).
Proof.
  intros H. destruct (compute_mri p) as [mri|e] eqn:Hmri.
  - destruct (compute_mri_extracts p mri Hmri) as (m & Hm).
    pose proof (compute_mri_range p mri Hmri) as Hr.
    pose proof (predict_after_seed p mri m g Hmri Hm) as Hp. cbv zeta in Hp.
    destruct (seed_of mri _ p) as [seed|e].
    + destruct Hp as (fc & w & Hrun & Hrest). rewrite Hrun in H.
      injection H as <- _. cbn. repeat split; try tauto; lia.
    + rewrite Hp in H. discriminate.
  - unfold predict in H. rewrite run_lift_bind, Hmri in H. discriminate.
Qed.

(** The response to the empty payload. *)
Lemma predict_response_well_formed_witness :
  exists resp g',
    run (predict (RT := sample_runtime) ∅) 0 = (Ok resp, g')
    /\ resp_mri resp = 61 /\ length (resp_forecast resp) = 7%nat
    /\ Forall (fun v => 0 <= v <= 100) (resp_forecast resp).
Proof.
  destruct (run (predict (RT := sample_runtime) ∅) 0) as [[resp|e] g'] eqn:Hrun;
    [|vm_compute in Hrun; discriminate Hrun].
  exists resp, g'. split; [reflexivity|].
  destruct (predict_response_well_formed (RT := sample_runtime) ∅ 0 g' resp Hrun)
    as (Hmri & _ & _ & _ & _ & _ & _ & Hlen & Hall & _).
  repeat split; try assumption.
  assert (E : compute_mri (RT := sample_runtime) ∅ = Ok 61) by (vm_compute; reflexivity).
  rewrite E in Hmri. injection Hmri as <-. reflexivity.
Defined.



Lemma py_add_clamped (mri : Z) (f : float) :
  0 <= mri <= 100 -> exists s, py_add (PInt mri) (clamp_default (PFloat f)) = Ok s.
Proof.
  intros Hr. destruct (clamp_default_float f) as [H|[H|(H & _)]]; rewrite H.
  - eexists. reflexivity.
  - eexists. reflexivity.
  - unfold py_add. cbn [to_float]. rewrite small_int_converts by exact Hr.
    eexists. reflexivity.
Qed.

(** A "stress" given as a string is accepted by [compute_mri] whenever the
    string reads as a number, yet [predict] adds the raw string to a number
    when it builds the seed: the request then always ends in a [TypeError],
    never in a response, and the generator is left untouched. *)
Theorem predict_rejects_string_stress {RT : PyRuntime} (p : gmap string pyval)
    (s : string) (mri : Z) (g : rng) :
  p !! "stress" = Some (VStr s) ->
  compute_mri p = Ok mri ->
  run (predict p) g
    = (Raise (TypeError "unsupported operand type(s) for +: 'int' and 'str'"), g)
  \/ run (predict p) g
     = (Raise (TypeError "unsupported operand type(s) for +: 'float' and 'str'"), g).
Proof.
  intros Hs Hmri. destruct (compute_mri_extracts p mri Hmri) as (m & Hm).
  pose proof (compute_mri_range p mri Hmri) as Hr.
  pose proof (predict_after_seed p mri m g Hmri Hm) as Hp. cbv zeta in Hp.
  unfold seed_of in Hp.
  destruct (py_add_clamped mri
              (PyFloat.of_Z (100 - mri) + context_switching m * 0.12
               + overload_hours m * 0.18 - recovery_breaks m * 0.1)%float Hr) as (x & Hx).
  rewrite Hx in Hp. cbn [mbind result_bind] in Hp.
  rewrite (get_present p "stress" (VInt 5) _ Hs) in Hp.
  unfold py_add_val in Hp. cbn [as_num type_name mbind result_bind] in Hp.
  destruct x as [z|y]; cbn [num_type_name] in Hp; rewrite Hp; [left | right]; reflexivity.
Qed.

(** The payload [{"stress": "3"}]: an MRI of 71, and no response. *)
Lemma predict_rejects_string_stress_witness :
  compute_mri (RT := digits_runtime) {[ "stress" := VStr "3" ]} = Ok 71
  /\ exists e, run (predict (RT := digits_runtime) {[ "stress" := VStr "3" ]}) 0
               = (Raise (TypeError e), 0).
Proof.
  split; [vm_compute; reflexivity|].
  destruct (predict_rejects_string_stress (RT := digits_runtime)
              {[ "stress" := VStr "3" ]} "3" 71 0) as [H|H].
  - reflexivity.
  - vm_compute. reflexivity.
  - eexists. exact H.
  - eexists. exact H.
Defined.

(** [predict] too reads the thirteen recognized keys and nothing else: two
    payloads that agree on them get the same response, or the same
    exception, and leave the generator in the same state. *)
Theorem predict_ignores_other_keys {RT : PyRuntime} (p1 p2 : gmap string pyval) (g : rng) :
  (forall k d, (k, d) ∈ metric_defaults -> p1 !! k = p2 !! k) ->
  run (predict p1) g = run (predict p2) g.
Proof.
  intros H.
  assert (Hget : forall k d, (k, d) ∈ metric_defaults ->
            get p1 k (VInt d) = get p2 k (VInt d)).
  { intros k d Hin. apply get_agree, (H k d Hin). }
  assert (Hmri : compute_mri p1 = compute_mri p2).
  { apply compute_mri_through_float. intros k d Hin. rewrite (Hget k d Hin). reflexivity. }
  unfold predict, seed_of.
  rewrite Hmri, (Hget "context_switching" 50 ltac:(in_defaults)),
    (Hget "recovery_breaks" 40 ltac:(in_defaults)),
    (Hget "overload_hours" 50 ltac:(in_defaults)),
    (Hget "deep_work" 50 ltac:(in_defaults)),
    (Hget "stress" 5 ltac:(in_defaults)).
  reflexivity.
Qed.

(** A payload with a stray key, against the one without. *)
Lemma predict_ignores_other_keys_witness :
  run (predict (RT := sample_runtime) {[ "sleep" := VInt 8; "user" := VStr "ann" ]}) 0
  = run (predict (RT := sample_runtime) {[ "sleep" := VInt 8 ]}) 0.
Proof.
  apply (predict_ignores_other_keys (RT := sample_runtime)).
  intros k d Hin. unfold metric_defaults in Hin.
  repeat (apply elem_of_cons in Hin as [Hin|Hin];
          [injection Hin as -> ->; vm_compute; reflexivity|]).
  apply elem_of_nil in Hin. contradiction.
Defined.

(** ** The confidence over the MRI range *)

Lemma in_range_101 (z : Z) : 0 <= z <= 100 -> In z (seqZ 0 101).
Proof. intros H. apply list_elem_of_In, elem_of_seqZ. lia. Qed.

(** The confidence never falls as the MRI rises: over the MRIs the index
    calculator can return, a higher MRI gets a confidence at least as high. *)
Theorem confidence_monotone (a b : Z) :
  0 <= a -> a <= b -> b <= 100 ->
  exists ca cb, confidence_of a = PFloat ca /\ confidence_of b = PFloat cb
                /\ (ca <=? cb)%float = true.
Proof.
  intros Ha Hab Hb.
  assert (Hall : forallb confidence_ordered_from (seqZ 0 101) = true)
    by (vm_compute; reflexivity).
  rewrite forallb_forall in Hall. specialize (Hall a (in_range_101 a ltac:(lia))).
  unfold confidence_ordered_from in Hall. rewrite forallb_forall in Hall.
  specialize (Hall b ltac:(apply list_elem_of_In, elem_of_seqZ; lia)).
  unfold confidence_le in Hall.
  destruct (confidence_of a) as [|ca]; [discriminate|].
  destruct (confidence_of b) as [|cb]; [discriminate|].
  exists ca, cb. auto.
Qed.

(** MRI 40 against MRI 61. *)
Lemma confidence_monotone_witness :
  exists ca cb, confidence_of 40 = PFloat ca /\ confidence_of 61 = PFloat cb
                /\ (ca <=? cb)%float = true.
Proof. apply (confidence_monotone 40 61); lia. Defined.

(** The [clamp] of line 160 never has to cut: for every MRI of [0, 100] the
    value [0.7 + (mri / 100) * 0.25] already compares within the bounds 0.7
    and 0.95. *)
Theorem confidence_clamp_never_cuts (mri : Z) :
  0 <= mri <= 100 ->
  (0.7 <=? raw_confidence mri)%float = true /\ (raw_confidence mri <=? 0.95)%float = true
  /\ confidence_of mri
     = py_round_2 (clamp (PFloat (raw_confidence mri)) (PFloat 0.7) (PFloat 0.95)).
Proof.
  intros H.
  assert (Hall : forallb raw_confidence_check (seqZ 0 101) = true)
    by (vm_compute; reflexivity).
  rewrite forallb_forall in Hall. specialize (Hall mri (in_range_101 mri H)).
  unfold raw_confidence_check in Hall. apply andb_true_iff in Hall as [H1 H2].
  repeat split; assumption || reflexivity.
Qed.

(** At MRI 100 the value is exactly the upper bound. *)
Lemma confidence_clamp_never_cuts_witness :
  (0.7 <=? raw_confidence 100)%float = true /\ (raw_confidence 100 <=? 0.95)%float = true.
Proof.
  destruct (confidence_clamp_never_cuts 100) as (H1 & H2 & _); [lia|]. auto.
Defined.

(** ** The tiers in order *)

(** A higher MRI never gets a worse tier: from a Healthy MRI upwards every
    MRI is Healthy, from a Danger MRI downwards every MRI is Danger. *)
Theorem risk_package_monotone (mri1 mri2 : Z) :
  mri1 <= mri2 ->
  (risk_package mri1 = healthy -> risk_package mri2 = healthy)
  /\ (risk_package mri2 = danger -> risk_package mri1 = danger)
  /\ (risk_package mri1 = at_risk -> risk_package mri2 <> danger).
Proof.
  intros Hle. destruct tiers_distinct as (Hha & Had & Hhd). unfold risk_package.
  destruct (75 <=? mri1) eqn:A1; destruct (55 <=? mri1) eqn:B1;
    destruct (75 <=? mri2) eqn:A2; destruct (55 <=? mri2) eqn:B2;
    try apply Z.leb_le in A1; try apply Z.leb_gt in A1;
    try apply Z.leb_le in B1; try apply Z.leb_gt in B1;
    try apply Z.leb_le in A2; try apply Z.leb_gt in A2;
    try apply Z.leb_le in B2; try apply Z.leb_gt in B2;
    try lia; repeat split; intros; try reflexivity; try congruence;
    exfalso; first [apply Hha; congruence | apply Had; congruence | apply Hhd; congruence].
Qed.

(** MRI 80 is Healthy, so MRI 90 is. *)
Lemma risk_package_monotone_witness : risk_package 90 = healthy.
Proof.
  destruct (risk_package_monotone 80 90) as (H & _); [lia|]. apply H. reflexivity.
Defined.

(** ** NaN arguments of the generators *)

Lemma int_clamp_nan (f : float) (v : Z) :
  PyFloat.is_nan f = true -> py_int (clamp_default (PFloat f)) = Ok v -> v = 100.
Proof.
  intros Hnan H. destruct (clamp_float_outcomes f) as (_ & Hc & _).
  rewrite (Hc Hnan) in H. injection H as <-. reflexivity.
Qed.

Lemma all_hundred (l : list Z) (n : nat) :
  length l = n -> (forall i v, l !! i = Some v -> v = 100) -> l = replicate n 100.
Proof.
  intros Hlen H. symmetry. apply replicate_as_Forall_2; [exact Hlen|].
  apply Forall_lookup. intros i v Hi. symmetry. exact (H i v Hi).
Qed.

(** [build_forecast] does not raise on a NaN: when the base or one of the
    three metrics is a NaN, every day's value is a NaN, [clamp] turns it
    into its upper bound, and the forecast is seven times 100. *)
Theorem build_forecast_nan {RT : PyRuntime} (base : float) (seed : Z)
    (context_switching recovery_breaks overload_hours : float) (g : rng) :
  PyFloat.is_nan base = true \/ PyFloat.is_nan context_switching = true
  \/ PyFloat.is_nan recovery_breaks = true \/ PyFloat.is_nan overload_hours = true ->
  run (build_forecast (PFloat base) seed context_switching recovery_breaks overload_hours) g
  = (Ok [100; 100; 100; 100; 100; 100; 100], after_draws 7 (rng_seed seed)).
Proof.
  intros Hnan. rewrite build_forecast_reseeds.
  destruct (forecast_loop_total (PFloat base) context_switching recovery_breaks overload_hours
              (py_range 7)
              (fun day Hd => eq_trans (f_equal is_ok
                   (day_base_float base day (week_days_convert day (py_range_small day Hd))))
                   eq_refl)
              [] (rng_seed seed)) as (vs & Hrun & Hlen & Hnth).
  change (length (py_range 7)) with 7%nat in Hrun, Hlen. cbn [app] in Hrun.
  rewrite Hrun. f_equal. f_equal. apply (all_hundred vs 7 Hlen).
  intros i v Hi.
  assert (i < 7)%nat as Hlt by (rewrite <- Hlen; eapply lookup_lt_Some; exact Hi).
  destruct (Hnth i (Z.of_nat i) (py_range_lookup 7 i Hlt)) as (x & v' & Hx & Hv' & _ & Hint).
  rewrite day_base_float in Hx by (apply week_days_convert; lia). injection Hx as <-.
  replace v with v' by congruence.
  eapply int_clamp_nan; [|exact Hint].
  destruct Hnan as [H|[H|[H|H]]]; auto 8 with nan.
Qed.

(** A NaN base. *)
Lemma build_forecast_nan_witness :
  run (build_forecast (RT := sample_runtime) (PFloat nan) 3 50 40 50) 0
  = (Ok [100; 100; 100; 100; 100; 100; 100],
     @after_draws sample_runtime 7 (@rng_seed sample_runtime 3)).
Proof. apply (build_forecast_nan (RT := sample_runtime)). left. reflexivity. Defined.

(** [weekly_series] does not raise on a NaN either: a NaN among the four
    metrics makes every index entry 100, and a NaN among
    [context_switching], [recovery_breaks] and [overload_hours] makes every
    load entry 100 as well. *)
Theorem weekly_series_nan {RT : PyRuntime} (mri seed : Z) (x : float)
    (deep_work context_switching recovery_breaks overload_hours : float) (g : rng) :
  float_of_int mri = Ok x ->
  PyFloat.is_nan deep_work = true \/ PyFloat.is_nan context_switching = true
  \/ PyFloat.is_nan recovery_breaks = true \/ PyFloat.is_nan overload_hours = true ->
  exists w,
    run (weekly_series mri seed deep_work context_switching recovery_breaks overload_hours) g
      = (Ok w, after_draws 14 (rng_seed seed))
    /\ weekly_mri w = [100; 100; 100; 100; 100; 100; 100]
    /\ (PyFloat.is_nan context_switching = true \/ PyFloat.is_nan recovery_breaks = true
        \/ PyFloat.is_nan overload_hours = true ->
        weekly_load w = [100; 100; 100; 100; 100; 100; 100]).
Proof.
  intros Hx Hnan. rewrite weekly_series_reseeds.
  destruct (weekly_loop_total mri x deep_work context_switching recovery_breaks overload_hours
              labels Hx [] [] (rng_seed seed)) as (ms & ls & Hrun & Hl1 & Hl2 & Hnth).
  change (length labels) with 7%nat in Hrun, Hl1, Hl2. cbn [app] in Hrun.
  rewrite Hrun. eexists. split; [reflexivity|]. cbn [weekly_mri weekly_load].
  assert (Hlab : forall d, (d < 7)%nat -> exists s, labels !! d = Some s).
  { intros d Hd. apply lookup_lt_is_Some_2. exact Hd. }
  split.
  - apply (all_hundred ms 7 Hl1). intros i v Hi.
    assert (i < 7)%nat as Hlt by (rewrite <- Hl1; eapply lookup_lt_Some; exact Hi).
    destruct (Hlab i Hlt) as (s & Hs).
    destruct (Hnth i s Hs) as (a & y & l & Ha & _ & _ & _ & Hia & _).
    replace v with a by congruence.
    eapply int_clamp_nan; [|exact Hia].
    destruct Hnan as [H|[H|[H|H]]]; auto 10 with nan.
  - intros Hnan'. apply (all_hundred ls 7 Hl2). intros i v Hi.
    assert (i < 7)%nat as Hlt by (rewrite <- Hl2; eapply lookup_lt_Some; exact Hi).
    destruct (Hlab i Hlt) as (s & Hs).
    destruct (Hnth i s Hs) as (a & y & l & _ & Hl & _ & _ & _ & _ & Hil).
    replace v with l by congruence.
    eapply int_clamp_nan; [|exact Hil].
    destruct Hnan' as [H|[H|H]]; auto 10 with nan.
Qed.

(** A NaN [overload_hours]. *)
Lemma weekly_series_nan_witness :
  exists w,
    fst (run (weekly_series (RT := sample_runtime) 61 3 50 50 40 nan) 0) = Ok w
    /\ weekly_mri w = [100; 100; 100; 100; 100; 100; 100]
    /\ weekly_load w = [100; 100; 100; 100; 100; 100; 100].
Proof.
  destruct (weekly_series_nan (RT := sample_runtime) 61 3 61 50 50 40 nan 0)
    as (w & Hrun & Hm & Hl).
  - vm_compute. reflexivity.
  - right; right; right. reflexivity.
  - exists w. rewrite Hrun. repeat split; [exact Hm|]. apply Hl. right; right. reflexivity.
Defined.


(** * The chat reply *)

Lemma prefix_app (w b : string) : String.prefix w (w ++ b) = true.
Proof.
  induction w as [|c w IH]; simpl; [destruct b; reflexivity|].
  destruct (Ascii.ascii_dec c c); [exact IH | contradiction].
Qed.

Lemma contains_prefix (w hay : string) : String.prefix w hay = true -> contains w hay = true.
Proof. intros H. destruct hay; cbn [contains]; rewrite H; reflexivity. Qed.

Lemma contains_tail (w : string) c hay :
  contains w hay = true -> contains w (String c hay) = true.
Proof. intros H. cbn [contains]. rewrite H. destruct (String.prefix _ _); reflexivity. Qed.

(** A word is found wherever it stands. *)
Lemma contains_app (a w b : string) : contains w (a ++ w ++ b) = true.
Proof.
  induction a as [|c a IH].
  - exact (contains_prefix _ _ (prefix_app w b)).
  - exact (contains_tail w c _ IH).
Qed.

Lemma ascii_lower_app (a b : string) :
  ascii_lower (a ++ b) = (ascii_lower a ++ ascii_lower b)%string.
Proof. induction a as [|c a IH]; simpl; [reflexivity | rewrite IH; reflexivity]. Qed.

Lemma any_in_word (words : list string) (w msg : string) :
  In w words -> contains w msg = true -> any_in words msg = true.
Proof. intros Hin Hc. unfold any_in. apply existsb_exists. eauto. Qed.

(** A word of tiredness is matched anywhere in an ASCII message, inside
    another word too and in any letter case, and it wins over every other
    keyword the message may hold: the reply is the one for depletion. *)
Theorem fatigue_word_anywhere {T : PyText} {L : PyTextLaws T} (a w b : string) :
  is_ascii (a ++ w ++ b) = true ->
  In (ascii_lower w) fatigue_words ->
  local_assistant_reply (a ++ w ++ b) = depleted_reply.
Proof.
  intros Hascii Hin. unfold local_assistant_reply. cbv zeta.
  rewrite (lower_ascii _ Hascii), !ascii_lower_app.
  rewrite (any_in_word fatigue_words (ascii_lower w) _ Hin (contains_app _ _ _)).
  reflexivity.
Qed.

#[local] Instance ascii_text_laws : PyTextLaws ascii_text.
Proof. split; reflexivity. Qed.

(** "So stressed, can't sleep, just reTIRED": tiredness wins. *)
Lemma fatigue_word_anywhere_witness :
  local_assistant_reply (T := ascii_text) "So stressed, can't sleep, just reTIRED."
  = depleted_reply.
Proof.
  apply (fatigue_word_anywhere (T := ascii_text) "So stressed, can't sleep, just re" "TIRED" ".").
  - reflexivity.
  - vm_compute. auto.
Defined.

(** * The chat endpoint *)

Lemma ascii_blank_ascii (s : string) : ascii_blank s = true -> is_ascii s = true.
Proof.
  induction s as [|c s IH]; [reflexivity|]. cbn. intros H.
  apply andb_true_iff in H as [Hc Hs]. rewrite (IH Hs), andb_true_r.
  unfold ascii_space in Hc. unfold is_ascii_char. cbv zeta in Hc.
  apply N.ltb_lt. apply orb_true_iff in Hc as [Hc|Hc];
    apply andb_true_iff in Hc as [_ Hc]; apply N.leb_le in Hc; lia.
Qed.

Lemma ascii_lstrip_blank (s : string) : ascii_blank (ascii_lstrip s) = ascii_blank s.
Proof.
  induction s as [|c s IH]; [reflexivity|]. cbn [ascii_lstrip].
  destruct (ascii_space c) eqn:Hc; [|reflexivity]. rewrite IH. cbn. rewrite Hc. reflexivity.
Qed.

Lemma ascii_rstrip_empty (s : string) :
  ascii_rstrip s = EmptyString <-> ascii_blank s = true.
Proof.
  induction s as [|c s IH]; [split; reflexivity|]. cbn.
  destruct (ascii_rstrip s) as [|c' r].
  - destruct IH as [IH _]. rewrite (IH eq_refl), andb_true_r.
    destruct (ascii_space c); split; intros; congruence.
  - split; [discriminate|]. intros H. apply andb_true_iff in H as [_ H].
    apply IH in H. discriminate.
Qed.

Lemma ascii_strip_empty (s : string) :
  ascii_strip s = EmptyString <-> ascii_blank s = true.
Proof. unfold ascii_strip. rewrite ascii_rstrip_empty, ascii_lstrip_blank. reflexivity. Qed.

(** A request without a message, or whose message is an ASCII string of
    white space only, is refused with status 400; an ASCII message with any
    other character in it is answered with status 200 and the reply to the
    stripped message. *)
Theorem chat_blank_or_answered {T : PyText} {L : PyTextLaws T} (payload : gmap string pyval) :
  (payload !! "message" = None ->
   chat payload = ({[ "error" := VStr "Message is required." ]}, 400))
  /\ (forall s, payload !! "message" = Some (VStr s) -> is_ascii s = true ->
       chat payload
       = if ascii_blank s then ({[ "error" := VStr "Message is required." ]}, 400)
         else ({[ "reply" := VStr (local_assistant_reply (ascii_strip s)) ]}, 200)).
Proof.
  split.
  - intros H. unfold chat, stripped_field. cbv zeta.
    rewrite (get_absent _ _ _ H), str_of_str, (strip_ascii "" eq_refl). reflexivity.
  - intros s H Hs. unfold chat, stripped_field. cbv zeta.
    rewrite (get_present _ _ _ _ H), str_of_str, (strip_ascii s Hs).
    destruct (ascii_blank s) eqn:Hb.
    + apply ascii_strip_empty in Hb. rewrite Hb. reflexivity.
    + destruct (String.eqb_spec (ascii_strip s) "") as [He|He]; [|reflexivity].
      apply ascii_strip_empty in He. congruence.
Qed.

(** A message of spaces and a tab. *)
Lemma chat_blank_or_answered_witness :
  chat (T := ascii_text) {[ "message" := VStr "  	 " ]}
  = ({[ "error" := VStr "Message is required." ]}, 400).
Proof.
  destruct (chat_blank_or_answered (T := ascii_text) {[ "message" := VStr "  	 " ]})
    as [_ H].
  exact (H "  	 " eq_refl eq_refl).
Defined.

(** * The accounts *)

Section AccountFacts.

Context {T : PyText}.

(** What a signup that answers 200 has checked and done. *)
Lemma signup_success (payload : gmap string pyval) (file file' : users_file)
    (resp : http_response) :
  signup payload file = (resp, file') -> snd resp = 200 ->
  let username := stripped_field payload "username" in
  let email := py_lower (stripped_field payload "email") in
  let password := stripped_field payload "password" in
  username <> "" /\ email <> "" /\ password <> ""
  /\ contains "@gmail.com" email = true
  /\ load_users file !! email = None
  /\ file' = Holds (<[email := {[ "username" := username; "password" := password ]}]>
                      (load_users file))
  /\ resp = ({[ "ok" := VBool true; "username" := VStr username; "email" := VStr email ]},
             200).
Proof.
  unfold signup. cbv zeta.
  destruct (String.eqb_spec (stripped_field payload "username") "") as [Hu|Hu];
    [intros [= <- <-]; discriminate|].
  destruct (String.eqb_spec (py_lower (stripped_field payload "email")) "") as [He|He];
    [intros [= <- <-]; discriminate|].
  destruct (String.eqb_spec (stripped_field payload "password") "") as [Hp|Hp];
    [intros [= <- <-]; discriminate|].
  cbn [orb].
  destruct (contains "@gmail.com" _) eqn:Hc; cbn [negb]; [|intros [= <- <-]; discriminate].
  destruct (load_users file !! _) eqn:Hl; [intros [= <- <-]; discriminate|].
  intros [= <- <-] _. unfold save_users. auto 10.
Qed.

Lemma record_lookup (username password : string) :
  ({[ "username" := username; "password" := password ]} : gmap string string) !! "password"
    = Some password
  /\ ({[ "username" := username; "password" := password ]} : gmap string string) !! "username"
     = Some username
  /\ ({[ "username" := username; "password" := password ]} : gmap string string) <> ∅.
Proof.
  split; [|split].
  - rewrite lookup_insert_ne by discriminate. apply lookup_singleton_eq.
  - apply lookup_insert_eq.
  - apply insert_non_empty.
Qed.

End AccountFacts.

(** After a signup that answered 200, a login with the same email and the
    same password (both as normalized: stripped, the email lowered) answers
    200 with the very body the signup returned. *)
Theorem signup_then_login {T : PyText} (payload payload' : gmap string pyval)
    (file file' : users_file) (resp : http_response) :
  signup payload file = (resp, file') -> snd resp = 200 ->
  py_lower (stripped_field payload' "email") = py_lower (stripped_field payload "email") ->
  stripped_field payload' "password" = stripped_field payload "password" ->
  login payload' file' = resp.
Proof.
  intros Hs H200 He Hp.
  destruct (signup_success payload file file' resp Hs H200)
    as (_ & _ & _ & _ & _ & -> & ->).
  unfold login. cbv zeta. rewrite He, Hp. cbn [load_users]. rewrite lookup_insert_eq.
  destruct (record_lookup (stripped_field payload "username")
              (stripped_field payload "password")) as (H1 & H2 & H3).
  destruct (decide (_ = ∅)) as [E|_]; [contradiction|].
  rewrite H1, H2. destruct (decide (_ = _)) as [_|N]; [reflexivity | contradiction].
Qed.

(** Ann signs up with a padded, mixed-case email and logs in with the plain
    one and a padded password. *)
Lemma signup_then_login_witness :
  let signed :=
    signup (T := ascii_text)
      {[ "username" := VStr "Ann"; "email" := VStr " Ann@Gmail.com ";
         "password" := VStr "pw" ]} Missing in
  snd (fst signed) = 200
  /\ login (T := ascii_text) {[ "email" := VStr "ann@gmail.com"; "password" := VStr " pw " ]}
       (snd signed)
     = fst signed.
Proof.
  cbv zeta. split; [vm_compute; reflexivity|].
  set (S := signup (T := ascii_text) _ Missing).
  apply (signup_then_login (T := ascii_text)
           {[ "username" := VStr "Ann"; "email" := VStr " Ann@Gmail.com ";
              "password" := VStr "pw" ]} _ Missing (snd S) (fst S)).
  - apply surjective_pairing.
  - vm_compute. reflexivity.
  - vm_compute. reflexivity.
  - vm_compute. reflexivity.
Defined.

(** A signup never touches an account that exists: whatever it answers,
    every email the file held still maps to the same record afterwards, and
    a signup that does not answer 200 leaves the file as it was. *)
Theorem signup_preserves_accounts {T : PyText} (payload : gmap string pyval)
    (file : users_file) :
  (snd (fst (signup payload file)) <> 200 -> snd (signup payload file) = file)
  /\ forall email record,
       load_users file !! email = Some record ->
       load_users (snd (signup payload file)) !! email = Some record.
Proof.
  destruct (signup payload file) as [resp file'] eqn:Hs. cbn [fst snd].
  destruct (decide (snd resp = 200)) as [H200|Hn].
  - destruct (signup_success payload file file' resp Hs H200)
      as (_ & _ & _ & _ & Hfree & -> & _).
    split; [intros Hn; contradiction|].
    intros email record Hl. cbn [load_users].
    rewrite lookup_insert_ne; [exact Hl|]. intros <-. congruence.
  - assert (file' = file) as ->.
    { revert Hs. unfold signup. cbv zeta.
      repeat (lazymatch goal with
              | |- (if ?c then _ else _) = _ -> _ => destruct c
              | |- match ?c with Some _ => _ | None => _ end = _ -> _ => destruct c
              end);
        intros [= <- <-]; try reflexivity. contradiction Hn. reflexivity. }
    auto.
Qed.

(** A second signup under an email that has just been registered answers 409
    and changes nothing, whatever username and password it brings. *)
Theorem signup_twice_conflicts {T : PyText} (payload payload' : gmap string pyval)
    (file file' : users_file) (resp : http_response) :
  signup payload file = (resp, file') -> snd resp = 200 ->
  py_lower (stripped_field payload' "email") = py_lower (stripped_field payload "email") ->
  stripped_field payload' "username" <> "" ->
  stripped_field payload' "password" <> "" ->
  signup payload' file' = (({[ "error" := VStr "User already exists." ]}, 409), file').
Proof.
  intros Hs H200 He Hu Hp.
  destruct (signup_success payload file file' resp Hs H200)
    as (_ & Hne & _ & Hc & _ & -> & _).
  unfold signup. cbv zeta. rewrite He.
  destruct (String.eqb_spec (stripped_field payload' "username") "") as [|_];
    [contradiction|].
  destruct (String.eqb_spec (py_lower (stripped_field payload "email")) "") as [|_];
    [contradiction|].
  destruct (String.eqb_spec (stripped_field payload' "password") "") as [|_];
    [contradiction|].
  cbn [orb]. rewrite Hc. cbn [negb load_users]. rewrite lookup_insert_eq. reflexivity.
Qed.

(** Bob tries Ann's email. *)
Lemma signup_twice_conflicts_witness :
  let signed :=
    signup (T := ascii_text)
      {[ "username" := VStr "Ann"; "email" := VStr "ann@gmail.com";
         "password" := VStr "pw" ]} Missing in
  signup (T := ascii_text)
    {[ "username" := VStr "Bob"; "email" := VStr "ANN@gmail.com"; "password" := VStr "x" ]}
    (snd signed)
  = (({[ "error" := VStr "User already exists." ]}, 409), snd signed).
Proof.
  cbv zeta.
  set (S := signup (T := ascii_text) _ Missing).
  apply (signup_twice_conflicts (T := ascii_text)
           {[ "username" := VStr "Ann"; "email" := VStr "ann@gmail.com";
              "password" := VStr "pw" ]} _ Missing (snd S) (fst S)).
  - apply surjective_pairing.
  - vm_compute. reflexivity.
  - vm_compute. reflexivity.
  - vm_compute. discriminate.
  - vm_compute. discriminate.
Defined.

(** After a signup that answered 200, a login under that email with any
    other password (as stripped) answers 401. *)
Theorem login_wrong_password {T : PyText} (payload payload' : gmap string pyval)
    (file file' : users_file) (resp : http_response) :
  signup payload file = (resp, file') -> snd resp = 200 ->
  py_lower (stripped_field payload' "email") = py_lower (stripped_field payload "email") ->
  stripped_field payload' "password" <> stripped_field payload "password" ->
  login payload' file' = ({[ "error" := VStr "Invalid credentials." ]}, 401).
Proof.
  intros Hs H200 He Hp.
  destruct (signup_success payload file file' resp Hs H200)
    as (_ & _ & _ & _ & _ & -> & _).
  unfold login. cbv zeta. rewrite He. cbn [load_users]. rewrite lookup_insert_eq.
  destruct (record_lookup (stripped_field payload "username")
              (stripped_field payload "password")) as (H1 & _ & _).
  destruct (decide (_ = ∅)) as [_|_]; [reflexivity|].
  rewrite H1. destruct (decide (_ = _)) as [E|_]; [|reflexivity].
  injection E as E. congruence.
Qed.

(** Ann's account, tried with the password "pw2". *)
Lemma login_wrong_password_witness :
  login (T := ascii_text) {[ "email" := VStr "ann@gmail.com"; "password" := VStr "pw2" ]}
    (snd (signup (T := ascii_text)
            {[ "username" := VStr "Ann"; "email" := VStr "ann@gmail.com";
               "password" := VStr "pw" ]} Missing))
  = ({[ "error" := VStr "Invalid credentials." ]}, 401).
Proof.
  set (S := signup (T := ascii_text) _ Missing).
  apply (login_wrong_password (T := ascii_text)
           {[ "username" := VStr "Ann"; "email" := VStr "ann@gmail.com";
              "password" := VStr "pw" ]} _ Missing (snd S) (fst S)).
  - apply surjective_pairing.
  - vm_compute. reflexivity.
  - vm_compute. reflexivity.
  - vm_compute. discriminate.
Defined.

(** The address check looks for "@gmail.com" anywhere in the email, not at
    its end: a free email that holds it in any position is registered, with
    the password stored as it was sent (stripped). *)
Theorem signup_accepts_gmail_anywhere {T : PyText} (payload : gmap string pyval)
    (file : users_file) (a b : string) :
  py_lower (stripped_field payload "email") = (a ++ "@gmail.com" ++ b)%string ->
  stripped_field payload "username" <> "" ->
  stripped_field payload "password" <> "" ->
  load_users file !! (a ++ "@gmail.com" ++ b)%string = None ->
  snd (fst (signup payload file)) = 200
  /\ load_users (snd (signup payload file)) !! (a ++ "@gmail.com" ++ b)%string
     = Some {[ "username" := stripped_field payload "username";
               "password" := stripped_field payload "password" ]}.
Proof.
  intros He Hu Hp Hfree. unfold signup. cbv zeta. rewrite He.
  destruct (String.eqb_spec (stripped_field payload "username") "") as [|_];
    [contradiction|].
  destruct (String.eqb_spec (a ++ "@gmail.com" ++ b)%string "") as [E|_].
  { destruct a; discriminate E. }
  destruct (String.eqb_spec (stripped_field payload "password") "") as [|_];
    [contradiction|].
  cbn [orb]. rewrite contains_app. cbn [negb]. rewrite Hfree. cbn [fst snd].
  split; [reflexivity|]. unfold save_users. cbn [load_users]. apply lookup_insert_eq.
Qed.

(** An address of another domain that merely mentions "@gmail.com". *)
Lemma signup_accepts_gmail_anywhere_witness :
  snd (fst (signup (T := ascii_text)
              {[ "username" := VStr "Eve"; "email" := VStr "eve@gmail.com.example.org";
                 "password" := VStr "pw" ]} Missing)) = 200.
Proof.
  destruct (signup_accepts_gmail_anywhere (T := ascii_text)
              {[ "username" := VStr "Eve"; "email" := VStr "eve@gmail.com.example.org";
                 "password" := VStr "pw" ]} Missing "eve" ".example.org") as [H _].
  - vm_compute. reflexivity.
  - vm_compute. discriminate.
  - vm_compute. discriminate.
  - reflexivity.
  - exact H.
Defined.
